(** * spot_advisor.py: the instance filter and the price enrichment

    A shallow embedding of [src/spot_advisor.py].  The two remote documents
    are taken after [json.loads], as Python values; every Python operation
    that can raise is a computation in an error monad, so that the order in
    which the source evaluates (and short-circuits) is visible. *)

From Stdlib Require Import ZArith QArith Bool List Lia.
From Stdlib Require Import Strings.String Strings.Ascii.
From Stdlib Require Import Numbers.DecimalString.
From Stdlib Require Import Sorting.Permutation.
Import ListNotations.

Local Open Scope string_scope.
Local Open Scope list_scope.
Local Open Scope Z_scope.

(** ** Numbers

    A Python [int] or [float] denotes an extended rational or NaN.  Python
    compares an [int] with a [float] (and two floats) by their exact values,
    so the comparisons below are the ones of the source.  Both float zeros
    denote [Fin 0]. *)

Inductive num : Type :=
  | NaN
  | NegInf
  | Fin (q : Q)
  | PosInf.

Definition of_Z (z : Z) : num := Fin (inject_Z z).

(** [a <= b] *)
Definition num_leb (a b : num) : bool :=
  match a, b with
  | NaN, _ | _, NaN => false
  | NegInf, _ => true
  | _, PosInf => true
  | Fin p, Fin q => Qle_bool p q
  | _, _ => false
  end.

(** [a < b] *)
Definition num_ltb (a b : num) : bool :=
  match a, b with
  | NaN, _ | _, NaN => false
  | NegInf, NegInf => false
  | NegInf, _ => true
  | PosInf, _ => false
  | Fin _, PosInf => true
  | Fin p, Fin q => negb (Qle_bool q p)
  | Fin _, NegInf => false
  end.

(** [a == b] *)
Definition num_eqb (a b : num) : bool :=
  match a, b with
  | NegInf, NegInf => true
  | PosInf, PosInf => true
  | Fin p, Fin q => Qeq_bool p q
  | _, _ => false
  end.

(** [bool(x)] of a number: everything but zero is true, NaN included. *)
Definition num_truthy (a : num) : bool :=
  match a with
  | Fin q => negb (Qeq_bool q 0)
  | _ => true
  end.

(** ** Python values and exceptions *)

#[warnings="-register-all"]
Inductive pyval : Type :=
  | PNone
  | PBool (b : bool)
  | PInt (z : Z)
  | PFloat (f : num)
  | PStr (s : string)
  | PList (l : list pyval)
  | PDict (d : list (string * pyval)).

Inductive exn : Type :=
  | AttributeError
  | TypeError
  | KeyError
  | ValueError
  | OverflowError
  | JSONDecodeError
  | RequestException.

Inductive result (A : Type) : Type :=
  | Ok (a : A)
  | Raise (e : exn).

Arguments Ok {A} a.
Arguments Raise {A} e.

Definition bind {A B : Type} (m : result A) (k : A -> result B) : result B :=
  match m with
  | Ok a => k a
  | Raise e => Raise e
  end.

Notation "x <- m ;; k" := (bind m (fun x => k))
  (at level 61, m at next level, right associativity).

(** ** Strings *)

(** [sub in s] on two strings *)
Fixpoint contains (sub s : string) : bool :=
  prefix sub s ||
  match s with
  | EmptyString => false
  | String _ s' => contains sub s'
  end.

(** [s.split(",")] *)
Fixpoint split_comma (s : string) : list string :=
  match s with
  | EmptyString => [EmptyString]
  | String c s' =>
      if Ascii.eqb c ","%char then EmptyString :: split_comma s'
      else match split_comma s' with
           | [] => [String c EmptyString]
           | w :: ws => String c w :: ws
           end
  end.

(** [str(n)] of an int *)
Definition str_of_int (z : Z) : string :=
  NilZero.string_of_int (Z.to_int z).

(** ** Operations on values *)

(** The number a value stands for in a comparison with an int or a float;
    [bool] is a subclass of [int].  Every other operand makes [<=] raise
    [TypeError]. *)
Definition to_num (v : pyval) : result num :=
  match v with
  | PBool b => Ok (of_Z (if b then 1 else 0))
  | PInt z => Ok (of_Z z)
  | PFloat f => Ok f
  | _ => Raise TypeError
  end.

(** [a <= v] for a number [a] *)
Definition py_le_l (a : num) (v : pyval) : result bool :=
  x <- to_num v ;; Ok (num_leb a x).

(** [v <= b] for a number [b] *)
Definition py_le_r (v : pyval) (b : num) : result bool :=
  x <- to_num v ;; Ok (num_leb x b).

(** [z == v] for an int [z]; never raises *)
Definition py_eq_int (z : Z) (v : pyval) : bool :=
  match v with
  | PBool b => z =? (if b then 1 else 0)
  | PInt n => z =? n
  | PFloat f => num_eqb (of_Z z) f
  | _ => false
  end.

(** [s == v] for a string [s] *)
Definition py_eq_str (s : string) (v : pyval) : bool :=
  match v with
  | PStr t => String.eqb s t
  | _ => false
  end.

(** [bool(v)] *)
Definition truthy (v : pyval) : bool :=
  match v with
  | PNone => false
  | PBool b => b
  | PInt z => negb (z =? 0)
  | PFloat f => num_truthy f
  | PStr s => negb (String.eqb s "")
  | PList l => match l with [] => false | _ => true end
  | PDict d => match d with [] => false | _ => true end
  end.

(** [a or b] *)
Definition py_or (a b : pyval) : pyval :=
  if truthy a then a else b.

(** A dict is the list of its items in insertion order; its keys are
    pairwise distinct. *)
Fixpoint dict_lookup (k : string) (d : list (string * pyval)) : option pyval :=
  match d with
  | [] => None
  | (k', v) :: d' => if String.eqb k k' then Some v else dict_lookup k d'
  end.

(** [v.get(k, default)]: only a dict has the method *)
Definition py_get (v : pyval) (k : string) (default : pyval) : result pyval :=
  match v with
  | PDict d =>
      Ok (match dict_lookup k d with Some x => x | None => default end)
  | _ => Raise AttributeError
  end.

(** [v.items()] *)
Definition py_items (v : pyval) : result (list (string * pyval)) :=
  match v with
  | PDict d => Ok d
  | _ => Raise AttributeError
  end.

(** [k in v] for a string [k]: key of a dict, element of a list, substring
    of a string; the other values are not containers *)
Definition py_in (k : string) (v : pyval) : result bool :=
  match v with
  | PDict d => Ok (match dict_lookup k d with Some _ => true | None => false end)
  | PList l => Ok (existsb (py_eq_str k) l)
  | PStr s => Ok (contains k s)
  | _ => Raise TypeError
  end.

(** [v[k]] for a string [k] *)
Definition py_getitem (v : pyval) (k : string) : result pyval :=
  match v with
  | PDict d =>
      match dict_lookup k d with
      | Some x => Ok x
      | None => Raise KeyError
      end
  | _ => Raise TypeError
  end.

(** ** The interruption-range table *)

Record range : Type := mkRange {
  index : Z;
  label : string;
  dots : Z;
  max : Z
}.

Definition ranges : list range :=
  [ mkRange 0 "<5%" 0 5;
    mkRange 1 "5-10%" 1 11;
    mkRange 2 "10-15%" 2 16;
    mkRange 3 "15-20%" 3 22;
    mkRange 4 ">20%" 4 100 ].

(** [next((r[field] for r in ranges if r['index'] == r_value), default)] *)
Definition next_range {A : Type} (field : range -> A) (r_value : pyval)
    (default : A) : A :=
  match find (fun r => py_eq_int (index r) r_value) ranges with
  | Some r => field r
  | None => default
  end.

Definition freq_label_of (r_value : pyval) : string :=
  next_range label r_value "Unknown".

Definition r_max_of (r_value : pyval) : Z :=
  next_range max r_value 100.

(** ** The instance filter *)

Record candidate : Type := mkCandidate {
  instance_type : string;
  cores : pyval;
  ram : pyval;
  discount : pyval;
  frequency_of_interruption : string
}.

(** [any(it in it_type for it in instance_types)] *)
Definition any_in (instance_types : list string) (it_type : string) : bool :=
  existsb (fun it => contains it it_type) instance_types.

(** [instance_types and not any(it in it_type for it in instance_types)]:
    [None] and the empty list are both false. *)
Definition type_rejected (instance_types : option (list string))
    (it_type : string) : bool :=
  match instance_types with
  | None | Some [] => false
  | Some l => negb (any_in l it_type)
  end.

(** [min_cores <= cores <= max_cores and min_ram <= ram_gb <= max_ram]: a
    chained comparison stops at its first false link and [and] at its first
    false operand, so an operand that would raise is only reached when
    everything before it holds. *)
Definition in_bounds (min_cores max_cores min_ram max_ram : num)
    (cores ram_gb : pyval) : result bool :=
  c1 <- py_le_l min_cores cores ;;
  if negb c1 then Ok false else
  c2 <- py_le_r cores max_cores ;;
  if negb c2 then Ok false else
  r1 <- py_le_l min_ram ram_gb ;;
  if negb r1 then Ok false else
  py_le_r ram_gb max_ram.

Section Filter.

Variables min_cores max_cores min_ram max_ram : num.
Variable max_interruption : option num.
Variable region : string.
Variable instance_types : option (list string).
Variable spot_advisor : pyval.

(** The part of the loop body under [if it_type in linux_data:]. *)
Definition emit (it_type : string) (cores ram_gb linux_data : pyval)
    : result (option candidate) :=
  e1 <- py_getitem linux_data it_type ;;
  discount <- py_get e1 "s" PNone ;;
  e2 <- py_getitem linux_data it_type ;;
  r_value <- py_get e2 "r" PNone ;;
  let freq_label := freq_label_of r_value in
  let c := mkCandidate it_type cores ram_gb discount freq_label in
  match max_interruption with
  | Some m =>
      let r_max := r_max_of r_value in
      if num_ltb m (of_Z r_max) then Ok None else Ok (Some c)
  | None => Ok (Some c)
  end.

(** One iteration of [for it_type, details in instance_types_data.items()]:
    [None] when the entry is skipped, the appended candidate otherwise. *)
Definition loop_body (it_type : string) (details : pyval)
    : result (option candidate) :=
  if type_rejected instance_types it_type then Ok None else
  cores <- py_get details "cores" PNone ;;
  ram_gb <- py_get details "ram_gb" PNone ;;
  ok <- in_bounds min_cores max_cores min_ram max_ram cores ram_gb ;;
  if negb ok then Ok None else
  has_region <- py_in region spot_advisor ;;
  if negb has_region then Ok None else
  region_data <- py_getitem spot_advisor region ;;
  linux_data <- py_get region_data "Linux" (PDict []) ;;
  has_type <- py_in it_type linux_data ;;
  if negb has_type then Ok None else
  emit it_type cores ram_gb linux_data.

(** The loop: the candidates appended so far are lost when an iteration
    raises. *)
Fixpoint filter_loop (items : list (string * pyval))
    : result (list candidate) :=
  match items with
  | [] => Ok []
  | (it_type, details) :: rest =>
      o <- loop_body it_type details ;;
      l <- filter_loop rest ;;
      Ok (match o with Some c => c :: l | None => l end)
  end.

End Filter.

(** What [requests.get] returns: the status and the body, the body as
    [json.loads] reads it. *)
Record response : Type := mkResponse {
  status_code : Z;
  json_loads_text : result pyval
}.

(** What the program writes on standard output. *)
Record row : Type := mkRow {
  col_instance : string;
  col_vcpu : pyval;
  col_memory : pyval;
  col_saving : pyval;
  col_frequency : string;
  col_usd : pyval
}.

Inductive output : Type :=
  | Line (s : string)
  | ErrorFetchingPrice (it_type : string) (exc : exn)
  | Table (field_names : list string) (rows : list row).

(** [get_filtered_instances], applied to the response of
    [requests.get(SPOT_ADVISOR_URL)]: what it prints and what it returns. *)
Definition get_filtered_instances
    (min_cores max_cores min_ram max_ram : num)
    (max_interruption : option num) (region : string)
    (max_usd : option num) (instance_types : option (list string))
    (resp : response) : list output * result (list candidate) :=
  if status_code resp =? 200 then
    ([],
     data <- json_loads_text resp ;;
     instance_types_data <- py_get data "instance_types" (PDict []) ;;
     spot_advisor <- py_get data "spot_advisor" (PDict []) ;;
     items <- py_items instance_types_data ;;
     filter_loop min_cores max_cores min_ram max_ram max_interruption
       region instance_types spot_advisor items)
  else
    ([Line ("Failed to retrieve Spot Advisor data: "
            ++ str_of_int (status_code resp))%string],
     Ok []).

(** ** Price enrichment

    [fetch_spot_price] runs once per candidate on the pool.  A finished
    future is taken with the candidate it was submitted for and with what
    [future.result()] does: return the looked-up price ([None], the string
    ["N/A"] or the ["USD"] field of the price document) or raise what the
    task raised.  [as_completed] yields every submitted future once, in
    completion order, so the loop runs over a permutation of the submitted
    tasks. *)

Definition task : Type := (candidate * result pyval)%type.

Definition field_names : list string :=
  ["INSTANCE"; "vCPU"; "Memory (GB)"; "Saving On On-Demand (%)";
   "Frequency of Interruption"; "USD/h"].

Definition NA : pyval := PStr "N/A".

(** [table.add_row([...,  price or "N/A"])] *)
Definition add_row (instance : candidate) (price : pyval) : row :=
  mkRow (instance_type instance) (cores instance) (ram instance)
        (discount instance) (frequency_of_interruption instance)
        (py_or price NA).

(** [price is not None and price != "N/A"] *)
Definition is_price (price : pyval) : bool :=
  match price with
  | PNone => false
  | PStr s => negb (String.eqb s "N/A")
  | _ => true
  end.

Section Enrichment.

(** The builtin [float]: the number its result denotes, or the exception
    it raises ([ValueError] on a string that is no number, [TypeError] on
    a list, ...). *)
Variable py_float : pyval -> result num.

Variable max_usd : option num.

(** [max_usd is not None and price > max_usd] *)
Definition over_ceiling (price : num) : bool :=
  match max_usd with
  | Some m => num_ltb m price
  | None => false
  end.

(** The [try] block: the price to show, or [None] when [continue] skips
    the row. *)
Definition try_price (outcome : result pyval) : result (option pyval) :=
  price <- outcome ;;
  if is_price price then
    price <- py_float price ;;
    if over_ceiling price then Ok None else Ok (Some (PFloat price))
  else Ok (Some price).

(** One iteration of [for future in as_completed(future_to_instance)]:
    what it prints and the row it adds, if any. *)
Definition enrich (t : task) : list output * list row :=
  let (instance, outcome) := t in
  match try_price outcome with
  | Ok None => ([], [])
  | Ok (Some price) => ([], [add_row instance price])
  | Raise exc =>
      ([ErrorFetchingPrice (instance_type instance) exc],
       [add_row instance NA])
  end.

Definition printed (completed : list task) : list output :=
  flat_map (fun t => fst (enrich t)) completed.

Definition table_rows (completed : list task) : list row :=
  flat_map (fun t => snd (enrich t)) completed.

(** [display_instance_info]: the messages of the [except] branch, then
    the table. *)
Definition display_instance_info (completed : list task) : list output :=
  printed completed ++ [Table field_names (table_rows completed)].

End Enrichment.

(** ** The program *)

Record arguments : Type := mkArguments {
  arg_min_cores : Z;
  arg_max_cores : num;
  arg_min_ram : num;
  arg_max_ram : num;
  arg_max_interruption : option Z;
  arg_region : string;
  arg_os : string;
  arg_instance_type : option string;
  arg_max_usd : option num
}.

(** What a run meets outside the program: the answer of the advisor
    endpoint (or the exception of [requests.get]), and, for the candidates
    handed to the pool, the finished futures in completion order. *)
Record world : Type := mkWorld {
  advisor : result response;
  completion : list candidate -> list task
}.

(** [args.instance_type.split(",") if args.instance_type else None] *)
Definition instance_types_of (a : option string) : option (list string) :=
  match a with
  | Some s => if truthy (PStr s) then Some (split_comma s) else None
  | None => None
  end.

(** The call of [get_filtered_instances] in [main]. *)
Definition filtered_instances_of (args : arguments) (resp : response)
    : list output * result (list candidate) :=
  get_filtered_instances
    (of_Z (arg_min_cores args)) (arg_max_cores args)
    (arg_min_ram args) (arg_max_ram args)
    (option_map of_Z (arg_max_interruption args))
    (arg_region args) (arg_max_usd args)
    (instance_types_of (arg_instance_type args)) resp.

(** [main] from the parsed arguments on (what [parser.parse_args()] does
    with a command line it rejects, or with [-h], is not part of it):
    standard output and the exit status of the process, 0 when [main]
    returns and 1 when an exception leaves it. *)
Definition main (py_float : pyval -> result num) (args : arguments)
    (w : world) : list output * Z :=
  match advisor w with
  | Raise _ => ([], 1)
  | Ok resp =>
      let (out, r) := filtered_instances_of args resp in
      match r with
      | Raise _ => (out, 1)
      | Ok [] => (out ++ [Line "No instances match the given criteria."], 0)
      | Ok filtered_instances =>
          (out ++ display_instance_info py_float (arg_max_usd args)
                    (completion w filtered_instances), 0)
      end
  end.

(** ** What the filter reads of the advisor document *)

(** The ["Linux"] sub-map of the region, [None] when the document has no
    entry for the region. *)
Definition linux_of (spot_advisor : pyval) (region : string)
    : result (option pyval) :=
  has_region <- py_in region spot_advisor ;;
  if negb has_region then Ok None else
  region_data <- py_getitem spot_advisor region ;;
  linux_data <- py_get region_data "Linux" (PDict []) ;;
  Ok (Some linux_data).

(** The interruption index the ["Linux"] sub-map of the region records for
    an instance type. *)
Definition r_value_of (spot_advisor : pyval) (region it_type : string)
    : result pyval :=
  region_data <- py_getitem spot_advisor region ;;
  linux_data <- py_get region_data "Linux" (PDict []) ;;
  e <- py_getitem linux_data it_type ;;
  py_get e "r" PNone.

(** The advisor document with the two keys the program reads. *)
Definition advisor_document (instance_types_data spot_advisor : pyval)
    : pyval :=
  PDict [ ("instance_types", instance_types_data);
          ("spot_advisor", spot_advisor) ].

(** An index that none of the table's entries has. *)
Definition unresolved (r_value : pyval) : Prop :=
  forall r, In r ranges -> py_eq_int (index r) r_value = false.

(** ** The price lookup *)

(** [c in chars] for a character *)
Definition in_chars (chars : string) (c : ascii) : bool :=
  existsb (Ascii.eqb c) (list_ascii_of_string chars).

(** [s.lstrip(chars)]: [chars] is a set of characters, not a prefix. *)
Fixpoint lstrip (chars s : string) : string :=
  match s with
  | EmptyString => EmptyString
  | String c s' => if in_chars chars c then lstrip chars s' else s
  end.

(** [s.rstrip(chars)] *)
Fixpoint rstrip (chars s : string) : string :=
  match s with
  | EmptyString => EmptyString
  | String c s' =>
      match rstrip chars s' with
      | EmptyString =>
          if in_chars chars c then EmptyString else String c EmptyString
      | r => String c r
      end
  end.

(** [s.strip(chars)] *)
Definition strip (chars s : string) : string :=
  rstrip chars (lstrip chars s).

(** [response.text.strip("callback(").rstrip(");")] *)
Definition raw_data (text : string) : string :=
  rstrip ");" (strip "callback(" text).

(** [for x in v]: the elements of a list, the keys of a dict, the
    characters of a string; nothing else is iterable. *)
Definition py_iter (v : pyval) : result (list pyval) :=
  match v with
  | PList l => Ok l
  | PDict d => Ok (map (fun kv => PStr (fst kv)) d)
  | PStr s =>
      Ok (map (fun c => PStr (String c EmptyString)) (list_ascii_of_string s))
  | _ => Raise TypeError
  end.

(** What [requests.get(SPOT_PRICE_URL)] returns. *)
Record price_response : Type := mkPriceResponse {
  price_status_code : Z;
  price_text : string
}.

(** [next((vc['prices']['USD'] for vc in ... if vc["name"] == os), "N/A")] *)
Fixpoint next_price (os : string) (value_columns : list pyval)
    : result pyval :=
  match value_columns with
  | [] => Ok NA
  | vc :: rest =>
      name <- py_getitem vc "name" ;;
      if py_eq_str os name then
        prices <- py_getitem vc "prices" ;;
        py_getitem prices "USD"
      else next_price os rest
  end.

(** The three nested loops of [fetch_spot_price]; [Some price] when the
    [return] inside them is reached, [None] when a loop runs out. *)
Fixpoint scan_sizes (instance_type os : string) (sizes : list pyval)
    : result (option pyval) :=
  match sizes with
  | [] => Ok None
  | size :: rest =>
      name <- py_get size "size" PNone ;;
      if py_eq_str instance_type name then
        columns <- py_get size "valueColumns" (PList []) ;;
        value_columns <- py_iter columns ;;
        price <- next_price os value_columns ;;
        Ok (Some price)
      else scan_sizes instance_type os rest
  end.

Fixpoint scan_instance_types (instance_type os : string)
    (instance_types : list pyval) : result (option pyval) :=
  match instance_types with
  | [] => Ok None
  | instance_type_data :: rest =>
      sizes <- py_get instance_type_data "sizes" (PList []) ;;
      sizes <- py_iter sizes ;;
      r <- scan_sizes instance_type os sizes ;;
      match r with
      | Some price => Ok (Some price)
      | None => scan_instance_types instance_type os rest
      end
  end.

Fixpoint scan_regions (instance_type region os : string)
    (regions_data : list pyval) : result (option pyval) :=
  match regions_data with
  | [] => Ok None
  | region_data :: rest =>
      name <- py_get region_data "region" PNone ;;
      if py_eq_str region name then
        instance_types <- py_get region_data "instanceTypes" (PList []) ;;
        instance_types <- py_iter instance_types ;;
        r <- scan_instance_types instance_type os instance_types ;;
        match r with
        | Some price => Ok (Some price)
        | None => scan_regions instance_type region os rest
        end
      else scan_regions instance_type region os rest
  end.

Section PriceLookup.

(** [json.loads] on a string: the value, or the exception on a text that
    is not JSON. *)
Variable json_loads : string -> result pyval.

(** [fetch_spot_price], given what [requests.get(SPOT_PRICE_URL)] does. *)
Definition fetch_spot_price (get : result price_response)
    (instance_type region os : string) : result pyval :=
  response <- get ;;
  if price_status_code response =? 200 then
    spot_data <- json_loads (raw_data (price_text response)) ;;
    config <- py_get spot_data "config" (PDict []) ;;
    regions_data <- py_get config "regions" (PList []) ;;
    regions_data <- py_iter regions_data ;;
    r <- scan_regions instance_type region os regions_data ;;
    Ok (match r with Some price => price | None => PNone end)
  else Ok PNone.

(** [future_to_instance]: one task per instance, in submission order; the
    request of the task for an instance type is answered by [get]. *)
Definition submitted (get : string -> result price_response)
    (region os : string) (instances : list candidate) : list task :=
  map (fun instance =>
         (instance,
          fetch_spot_price (get (instance_type instance))
            (instance_type instance) region os))
      instances.

(** A run of the program: [main] in the world where the pool finishes the
    submitted tasks in the order [order] puts them. *)
Definition run (py_float : pyval -> result num) (args : arguments)
    (advisor : result response) (get : string -> result price_response)
    (order : list task -> list task) : list output * Z :=
  main py_float args
    (mkWorld advisor
       (fun instances =>
          order (submitted get (arg_region args) (arg_os args) instances))).

End PriceLookup.

(** ** Price documents of the published shape *)

(** A region of the price document: its name and, per family, the sizes
    with their value columns (name of the column, price in USD). *)
Definition size_data : Type := (string * list (string * string))%type.
Definition region_prices : Type := (string * list (list size_data))%type.

Definition value_column (c : string * string) : pyval :=
  PDict [("name", PStr (fst c)); ("prices", PDict [("USD", PStr (snd c))])].

Definition size_entry (s : size_data) : pyval :=
  PDict [("size", PStr (fst s));
         ("valueColumns", PList (map value_column (snd s)))].

Definition family_entry (sizes : list size_data) : pyval :=
  PDict [("sizes", PList (map size_entry sizes))].

Definition region_entry (r : region_prices) : pyval :=
  PDict [("region", PStr (fst r));
         ("instanceTypes", PList (map family_entry (snd r)))].

Definition price_document (regions : list region_prices) : pyval :=
  PDict [("config", PDict [("regions", PList (map region_entry regions))])].

(** The sizes listed under a region name, over all entries with that name
    and all their families, in document order. *)
Definition sizes_of (region : string) (regions : list region_prices)
    : list size_data :=
  flat_map (fun r => List.concat (snd r))
           (filter (fun r => String.eqb region (fst r)) regions).

(** The price of the first size with the given name, in the first of its
    columns with the given name. *)
Definition listed_price (instance_type region os : string)
    (regions : list region_prices) : pyval :=
  match find (fun s => String.eqb instance_type (fst s))
             (sizes_of region regions) with
  | None => PNone
  | Some s =>
      match find (fun c => String.eqb os (fst c)) (snd s) with
      | Some c => PStr (snd c)
      | None => NA
      end
  end.

(** ** Notions used to state properties of the filter *)

(** The upper bound that goes with a label of the table; 100 for any
    other label. *)
Definition max_of_label (l : string) : Z :=
  match find (fun r => String.eqb (label r) l) ranges with
  | Some r => max r
  | None => 100
  end.

(** The upper bound of a candidate's label does not exceed [m]. *)
Definition within_ceiling (m : num) (c : candidate) : bool :=
  negb (num_ltb m (of_Z (max_of_label (frequency_of_interruption c)))).

(** The value [d.get(k)] gives for what the lookup finds. *)
Definition or_None (o : option pyval) : pyval :=
  match o with Some v => v | None => PNone end.

(** [l1] is [l2] with some elements left out. *)
Inductive subsequence {A : Type} : list A -> list A -> Prop :=
  | subsequence_nil : subsequence [] []
  | subsequence_skip x l1 l2 : subsequence l1 l2 -> subsequence l1 (x :: l2)
  | subsequence_keep x l1 l2 :
      subsequence l1 l2 -> subsequence (x :: l1) (x :: l2).

(** The first and the last character of a string are outside a set. *)
Definition starts_outside (chars s : string) : bool :=
  match s with
  | EmptyString => false
  | String c _ => negb (in_chars chars c)
  end.

Fixpoint ends_outside (chars s : string) : bool :=
  match s with
  | EmptyString => false
  | String c EmptyString => negb (in_chars chars c)
  | String _ s' => ends_outside chars s'
  end.

(** ** A small dataset

    The advisor document of the end-to-end scenario, with a few more
    entries, and a handful of runs of the definitions above. *)

Module Example.

Definition spec (c : Z) (r : pyval) : pyval :=
  PDict [("cores", PInt c); ("ram_gb", r); ("emr", PBool true)].

Definition advice (s : Z) (r : pyval) : pyval :=
  PDict [("s", PInt s); ("r", r)].

Definition instance_types_data : pyval :=
  PDict [ ("m6i.large", spec 2 (PFloat (Fin 8)));
          ("m5.large", spec 2 (PFloat (Fin 8)));
          ("c6i.xlarge", spec 4 (PFloat (Fin 8)));
          ("t3.nano", spec 2 (PFloat (Fin (1 # 2))));
          ("x9.odd", spec 4 (PFloat (Fin 16)));
          ("r6i.4xlarge", spec 16 (PFloat (Fin 128))) ].

Definition linux_east : pyval :=
  PDict [ ("m6i.large", advice 70 (PInt 1));
          ("m5.large", advice 65 (PInt 0));
          ("c6i.xlarge", advice 60 (PInt 2));
          ("x9.odd", advice 50 (PInt 7));
          ("r6i.4xlarge", advice 55 (PInt 4)) ].

Definition spot_advisor : pyval :=
  PDict [ ("us-east-1",
           PDict [ ("Linux", linux_east);
                   ("Windows",
                    PDict [ ("t3.nano", advice 40 (PInt 0)) ]) ]);
          ("eu-west-1",
           PDict [ ("Windows",
                    PDict [ ("m6i.large", advice 30 (PInt 3)) ]) ]) ].

Definition data : pyval :=
  advisor_document instance_types_data spot_advisor.

Definition ok : response := mkResponse 200 (Ok data).
Definition not_found : response := mkResponse 404 (Raise JSONDecodeError).

Definition m6i : candidate :=
  mkCandidate "m6i.large" (PInt 2) (PFloat (Fin 8)) (PInt 70) "5-10%".
Definition m5 : candidate :=
  mkCandidate "m5.large" (PInt 2) (PFloat (Fin 8)) (PInt 65) "<5%".
Definition c6i : candidate :=
  mkCandidate "c6i.xlarge" (PInt 4) (PFloat (Fin 8)) (PInt 60) "10-15%".
Definition x9 : candidate :=
  mkCandidate "x9.odd" (PInt 4) (PFloat (Fin 16)) (PInt 50) "Unknown".

(** [float] on the values of the examples: numbers, and the decimal
    literals written out here, each of which a double holds exactly. *)
Definition float (v : pyval) : result num :=
  match v with
  | PBool b => Ok (of_Z (if b then 1 else 0))
  | PInt z => Ok (of_Z z)
  | PFloat f => Ok f
  | PStr s =>
      if String.eqb s "0.0000" then Ok (Fin 0)
      else if String.eqb s "0.0625" then Ok (Fin (1 # 16))
      else if String.eqb s "0.2500" then Ok (Fin (1 # 4))
      else if String.eqb s "0.5000" then Ok (Fin (1 # 2))
      else Raise ValueError
  | _ => Raise TypeError
  end.

Definition batch : list task :=
  [ (c6i, Ok (PStr "0.0625"));
    (m6i, Ok (PStr "0.5000"));
    (m5, Ok (PStr "0.2500")) ].

(** A pool that finishes the tasks in reverse order of submission and
    finds the same price for every candidate. *)
Definition reversed (price : result pyval) : list candidate -> list task :=
  fun l => rev (map (fun c => (c, price)) l).

Definition args : arguments :=
  mkArguments 1 (of_Z 4) (Fin 4) (Fin 16) None "us-east-1" "windows"
              None None.

End Example.

(** A small price document, its text and a reader of that text. *)

Module PriceExample.

Definition east : list (list size_data) :=
  [ [ ("m5.large", [("linux", "0.2500"); ("mswin", "0.5000")]) ];
    [ ("m6i.large", [("linux", "0.0625"); ("mswin", "0.2500")]);
      ("c6i.xlarge", [("mswin", "0.5000")]) ] ].

Definition regions : list region_prices :=
  [ ("eu-west-1", [ [ ("m6i.large", [("linux", "0.5000")]) ] ]);
    ("us-east-1", east) ].

Definition one_size : list region_prices :=
  [ ("us-east-1",
     [ [ ("m6i.large", [("linux", "0.0625"); ("mswin", "0.2500")]) ] ]) ].

(** A JSON string literal *)
Definition k (s : string) : string :=
  (String "034"%char s ++ String "034"%char EmptyString)%string.

(** The JSON text of [price_document one_size]. *)
Definition body : string :=
  ("{" ++ k "config" ++ ":{" ++ k "regions" ++ ":[{"
   ++ k "region" ++ ":" ++ k "us-east-1" ++ ","
   ++ k "instanceTypes" ++ ":[{" ++ k "sizes" ++ ":[{"
   ++ k "size" ++ ":" ++ k "m6i.large" ++ ","
   ++ k "valueColumns" ++ ":[{"
   ++ k "name" ++ ":" ++ k "linux" ++ ","
   ++ k "prices" ++ ":{" ++ k "USD" ++ ":" ++ k "0.0625" ++ "}},{"
   ++ k "name" ++ ":" ++ k "mswin" ++ ","
   ++ k "prices" ++ ":{" ++ k "USD" ++ ":" ++ k "0.2500" ++ "}}]}]}]}]}}"
  )%string.

Definition text : string := ("callback(" ++ body ++ ");")%string.

(** [json.loads] on the texts of the examples. *)
Definition loads (s : string) : result pyval :=
  if String.eqb s body then Ok (price_document one_size)
  else if String.eqb s "{}" then Ok (PDict [])
  else if String.eqb s "[]" then Ok (PList [])
  else Raise JSONDecodeError.

Definition ok : price_response := mkPriceResponse 200 text.

Definition args : arguments :=
  mkArguments 1 (of_Z 4) (Fin 4) (Fin 16) None "us-east-1" "linux"
              None None.

End PriceExample.

(** A document with one entry that has no interruption index. *)

Module Tiny.

Definition details : list (string * pyval) :=
  [ ("cores", PInt 2); ("ram_gb", PInt 4) ].

Definition items : list (string * pyval) :=
  [ ("t3.nano", PDict [("cores", PInt 2); ("ram_gb", PFloat (Fin (1 # 2)))]);
    ("a1.large", PDict details) ].

Definition advice : list (string * pyval) := [ ("s", PInt 40) ].

Definition linux : list (string * pyval) := [ ("a1.large", PDict advice) ].

Definition region_data : list (string * pyval) :=
  [ ("Windows", PNone); ("Linux", PDict linux) ].

Definition spot_advisor : list (string * pyval) :=
  [ ("us-east-1", PDict region_data) ].

Definition a1 : candidate :=
  mkCandidate "a1.large" (PInt 2) (PInt 4) (PInt 40) "Unknown".

End Tiny.

Example filter_scenario :
  get_filtered_instances (of_Z 1) (of_Z 4) (Fin 4) (Fin 16) None "us-east-1"
    None (Some ["6i"]) Example.ok
  = ([], Ok [Example.m6i; Example.c6i]).
Proof. reflexivity. Qed.

Example filter_defaults :
  get_filtered_instances (of_Z 0) PosInf (Fin 0) PosInf (Some (of_Z 11))
    "us-east-1" None None Example.ok
  = ([], Ok [Example.m6i; Example.m5]).
Proof. reflexivity. Qed.

Example filter_missing_spec :
  snd (get_filtered_instances (of_Z 1) (of_Z 4) (Fin 4) (Fin 16) None
         "us-east-1" None None
         (mkResponse 200
            (Ok (PDict [("instance_types",
                         PDict [("m6i.large", PDict [("cores", PInt 2)])])]))))
  = Raise TypeError.
Proof. reflexivity. Qed.

Example split_comma_two : split_comma "6i,7i" = ["6i"; "7i"].
Proof. reflexivity. Qed.

Example str_of_int_404 : str_of_int 404 = "404".
Proof. reflexivity. Qed.

(** ** Facts about numbers and strings *)

Lemma num_ltb_of_Z (a b : Z) : num_ltb (of_Z a) (of_Z b) = (a <? b).
Proof.
  unfold of_Z, num_ltb, Qle_bool; simpl. rewrite !Z.mul_1_r.
  now rewrite Z.ltb_antisym.
Qed.

Lemma num_leb_refl (a : num) : a <> NaN -> num_leb a a = true.
Proof.
  destruct a as [ | | q | ]; simpl; intros H; try congruence.
  apply Qle_bool_iff, Qle_refl.
Qed.

Lemma num_ltb_asym (a b : num) : num_ltb a b = true -> num_ltb b a = false.
Proof.
  destruct a as [ | | p | ], b as [ | | q | ]; simpl; try congruence.
  rewrite negb_true_iff, negb_false_iff, Qle_bool_iff. intros H.
  apply Qlt_le_weak, Qnot_le_lt. rewrite <- Qle_bool_iff. congruence.
Qed.

Lemma num_truthy_false (a : num) :
  num_truthy a = false <-> exists q, a = Fin q /\ (q == 0)%Q.
Proof.
  destruct a as [ | | q | ]; simpl; split;
    try discriminate; try (intros (q' & E & _); discriminate).
  - rewrite negb_false_iff, Qeq_bool_iff. intros H. now exists q.
  - intros (q' & E & H). injection E as ->.
    now rewrite negb_false_iff, Qeq_bool_iff.
Qed.

Lemma prefix_app (p s : string) :
  prefix p s = true <-> exists suf, s = (p ++ suf)%string.
Proof.
  revert s. induction p as [ | a p IH]; intros s.
  - split; [ intros _; now exists s | intros _; now destruct s ].
  - destruct s as [ | b s]; simpl.
    + split; [ discriminate | intros (suf & E); discriminate ].
    + destruct (ascii_dec a b) as [-> | N].
      * rewrite IH. split; intros (suf & E); exists suf.
        -- now rewrite E.
        -- now injection E.
      * split; [ discriminate | ].
        intros (suf & E). injection E as E1 E2. congruence.
Qed.

(** [contains] is the substring test. *)
Lemma contains_spec (sub s : string) :
  contains sub s = true <->
  exists pre suf, s = (pre ++ sub ++ suf)%string.
Proof.
  induction s as [ | a s IH]; cbn [contains].
  - rewrite orb_false_r, prefix_app. split.
    + intros (suf & E). now exists ""%string, suf.
    + intros ([ | c pre] & suf & E); [ now exists suf | discriminate ].
  - rewrite orb_true_iff, prefix_app, IH. split.
    + intros [(suf & E) | (pre & suf & E)].
      * now exists ""%string, suf.
      * exists (String a pre), suf. simpl. now rewrite E.
    + intros ([ | c pre] & suf & E).
      * left. now exists suf.
      * right. injection E as E1 E2. now exists pre, suf.
Qed.

(** ** Inversion of the monadic code *)

Lemma bind_Ok {A B : Type} (m : result A) (k : A -> result B) (b : B) :
  bind m k = Ok b -> exists a, m = Ok a /\ k a = Ok b.
Proof.
  destruct m as [a | e]; simpl; [ | discriminate ]. intros H. now exists a.
Qed.

Ltac bind_inv H :=
  let x := fresh "x" in
  let E := fresh "E" in
  apply bind_Ok in H; destruct H as (x & E & H).

Lemma in_bounds_true (a b c d : num) (cores ram_gb : pyval) :
  in_bounds a b c d cores ram_gb = Ok true ->
  exists x y,
    to_num cores = Ok x /\ to_num ram_gb = Ok y /\
    num_leb a x = true /\ num_leb x b = true /\
    num_leb c y = true /\ num_leb y d = true.
Proof.
  unfold in_bounds, py_le_l, py_le_r.
  destruct (to_num cores) as [x | e]; simpl; [ | discriminate ].
  destruct (num_leb a x) eqn:E1; simpl; [ | discriminate ].
  destruct (num_leb x b) eqn:E2; simpl; [ | discriminate ].
  destruct (to_num ram_gb) as [y | e]; simpl; [ | discriminate ].
  destruct (num_leb c y) eqn:E3; simpl; [ | discriminate ].
  intros H. injection H as E4. now exists x, y.
Qed.

Lemma emit_Some (max_interruption : option num) (it_type : string)
    (cores ram_gb linux_data : pyval) (c : candidate) :
  emit max_interruption it_type cores ram_gb linux_data = Ok (Some c) ->
  exists e discount r_value,
    py_getitem linux_data it_type = Ok e /\
    py_get e "s" PNone = Ok discount /\
    py_get e "r" PNone = Ok r_value /\
    c = mkCandidate it_type cores ram_gb discount (freq_label_of r_value) /\
    (forall m, max_interruption = Some m ->
               num_ltb m (of_Z (r_max_of r_value)) = false).
Proof.
  unfold emit. intros H.
  bind_inv H. bind_inv H. bind_inv H. bind_inv H.
  rewrite E in E1. injection E1 as <-.
  exists x, x0, x2. repeat split; trivial.
  - destruct max_interruption as [m | ].
    + destruct (num_ltb m _); [ discriminate | now injection H ].
    + now injection H.
  - intros m ->. destruct (num_ltb m _); [ discriminate | reflexivity ].
Qed.

Section FilterFacts.

Variables min_cores max_cores min_ram max_ram : num.
Variable max_interruption : option num.
Variable region : string.
Variable instance_types : option (list string).
Variable spot_advisor : pyval.

Let body := loop_body min_cores max_cores min_ram max_ram max_interruption
              region instance_types spot_advisor.
Let loop := filter_loop min_cores max_cores min_ram max_ram max_interruption
              region instance_types spot_advisor.

(** What an iteration that appends a candidate went through. *)
Lemma loop_body_Some (it_type : string) (details : pyval) (c : candidate) :
  body it_type details = Ok (Some c) ->
  type_rejected instance_types it_type = false /\
  exists cores ram_gb region_data linux_data,
    py_get details "cores" PNone = Ok cores /\
    py_get details "ram_gb" PNone = Ok ram_gb /\
    in_bounds min_cores max_cores min_ram max_ram cores ram_gb = Ok true /\
    py_in region spot_advisor = Ok true /\
    py_getitem spot_advisor region = Ok region_data /\
    py_get region_data "Linux" (PDict []) = Ok linux_data /\
    py_in it_type linux_data = Ok true /\
    emit max_interruption it_type cores ram_gb linux_data = Ok (Some c).
Proof.
  unfold body, loop_body. intros H.
  destruct (type_rejected instance_types it_type); [ discriminate | ].
  split; [ reflexivity | ].
  bind_inv H. bind_inv H. bind_inv H.
  destruct x1; simpl in H; [ | discriminate ].
  bind_inv H. destruct x1; simpl in H; [ | discriminate ].
  bind_inv H. bind_inv H. bind_inv H.
  destruct x3; simpl in H; [ | discriminate ].
  exists x, x0, x1, x2. now repeat split.
Qed.

(** The loop body reads the advisor document through [linux_of] only. *)
Lemma loop_body_linux_of (it_type : string) (details : pyval) :
  body it_type details =
  if type_rejected instance_types it_type then Ok None else
  cores <- py_get details "cores" PNone ;;
  ram_gb <- py_get details "ram_gb" PNone ;;
  ok <- in_bounds min_cores max_cores min_ram max_ram cores ram_gb ;;
  if negb ok then Ok None else
  o <- linux_of spot_advisor region ;;
  match o with
  | None => Ok None
  | Some linux_data =>
      has_type <- py_in it_type linux_data ;;
      if negb has_type then Ok None else
      emit max_interruption it_type cores ram_gb linux_data
  end.
Proof.
  unfold body, loop_body, linux_of.
  destruct (type_rejected instance_types it_type); [ reflexivity | ].
  destruct (py_get details "cores" PNone) as [cores | e]; simpl; trivial.
  destruct (py_get details "ram_gb" PNone) as [ram_gb | e]; simpl; trivial.
  destruct (in_bounds _ _ _ _ cores ram_gb) as [[ | ] | e]; simpl; trivial.
  destruct (py_in region spot_advisor) as [[ | ] | e]; simpl; trivial.
  destruct (py_getitem spot_advisor region) as [rd | e]; simpl; trivial.
  destruct (py_get rd "Linux" (PDict [])) as [ld | e]; simpl; trivial.
Qed.

(** Every candidate of the list was appended by some iteration. *)
Lemma filter_loop_In (items : list (string * pyval)) :
  forall l c, loop items = Ok l -> In c l ->
  exists it_type details,
    In (it_type, details) items /\ body it_type details = Ok (Some c).
Proof.
  induction items as [ | [it_type details] rest IH]; intros l c H Hc.
  - injection H as <-. destruct Hc.
  - unfold loop in H. simpl in H. bind_inv H. bind_inv H. injection H as <-.
    assert (In c x0 \/ x = Some c) as [Hin | ->].
    { destruct x as [c' | ]; [ | now left ].
      destruct Hc as [-> | Hc]; [ now right | now left ]. }
    + destruct (IH x0 c E0 Hin) as (it' & d' & Hin' & Hb).
      exists it', d'. split; [ now right | assumption ].
    + exists it_type, details. split; [ now left | assumption ].
Qed.

End FilterFacts.

(** What stands behind a candidate in the list [get_filtered_instances]
    returns. *)
Lemma get_filtered_In (min_cores max_cores min_ram max_ram : num)
    (max_interruption : option num) (region : string) (max_usd : option num)
    (instance_types : option (list string)) (resp : response)
    (l : list candidate) (c : candidate) :
  snd (get_filtered_instances min_cores max_cores min_ram max_ram
         max_interruption region max_usd instance_types resp) = Ok l ->
  In c l ->
  status_code resp = 200 /\
  exists data instance_types_data spot_advisor items it_type details,
    json_loads_text resp = Ok data /\
    py_get data "instance_types" (PDict []) = Ok instance_types_data /\
    py_get data "spot_advisor" (PDict []) = Ok spot_advisor /\
    py_items instance_types_data = Ok items /\
    In (it_type, details) items /\
    loop_body min_cores max_cores min_ram max_ram max_interruption region
      instance_types spot_advisor it_type details = Ok (Some c).
Proof.
  unfold get_filtered_instances. intros H Hc.
  destruct (status_code resp =? 200) eqn:S; simpl in H.
  - split; [ now apply Z.eqb_eq | ].
    bind_inv H. bind_inv H. bind_inv H. bind_inv H.
    destruct (filter_loop_In _ _ _ _ _ _ _ _ _ _ _ H Hc) as (it & d & Hin & Hb).
    exists x, x0, x1, x2, it, d. now repeat split.
  - injection H as <-. destruct Hc.
Qed.

Lemma r_max_of_bounds (r_value : pyval) : 5 <= r_max_of r_value <= 100.
Proof.
  unfold r_max_of, next_range, ranges. simpl.
  repeat (match goal with
          | |- context [py_eq_int ?z r_value] =>
              destruct (py_eq_int z r_value)
          end; simpl; try lia).
Qed.

(** ** The range table *)

(** C9: the interruption-range table has exactly five entries, their
    indices are 0, 1, 2, 3, 4 in this order, and the upper bound [max] grows
    strictly with the index. *)
Theorem ranges_contiguous_and_increasing :
  List.length ranges = 5%nat /\
  map index ranges = [0; 1; 2; 3; 4] /\
  (forall r1 r2, In r1 ranges -> In r2 ranges ->
                 index r1 < index r2 -> max r1 < max r2).
Proof.
  repeat split.
  intros r1 r2 H1 H2. simpl in H1, H2.
  repeat (destruct H1 as [<- | H1]; [ | ]); try contradiction;
    repeat (destruct H2 as [<- | H2]; [ | ]); try contradiction;
    simpl; lia.
Qed.

(** ** The bounds on cores and memory *)

(** C1: whatever the advisor document and the constraints, every candidate
    that [get_filtered_instances] returns has a number of cores [x] with
    [min_cores <= x <= max_cores] and an amount of memory [y] with
    [min_ram <= y <= max_ram]; the four comparisons are not strict, so a
    value equal to a bound passes the test. *)
Theorem filter_within_bounds :
  (forall (min_cores max_cores min_ram max_ram : num)
          (max_interruption : option num) (region : string)
          (max_usd : option num) (instance_types : option (list string))
          (resp : response) (l : list candidate) (c : candidate),
     snd (get_filtered_instances min_cores max_cores min_ram max_ram
            max_interruption region max_usd instance_types resp) = Ok l ->
     In c l ->
     exists x y,
       to_num (cores c) = Ok x /\ to_num (ram c) = Ok y /\
       num_leb min_cores x = true /\ num_leb x max_cores = true /\
       num_leb min_ram y = true /\ num_leb y max_ram = true)
  /\
  (forall x y : num, x <> NaN -> y <> NaN ->
     in_bounds x x y y (PFloat x) (PFloat y) = Ok true).
Proof.
  split.
  - intros a b c d mi region mu types resp l cand H Hc.
    destruct (get_filtered_In _ _ _ _ _ _ _ _ _ _ _ H Hc)
      as (_ & data & itd & sa & items & it & details & _ & _ & _ & _ & _ & Hb).
    apply loop_body_Some in Hb.
    destruct Hb as (_ & cs & rg & rd & ld & _ & _ & Hin & _ & _ & _ & _ & He).
    apply emit_Some in He.
    destruct He as (e & ds & rv & _ & _ & _ & -> & _). simpl.
    now apply in_bounds_true.
  - intros x y Hx Hy. unfold in_bounds, py_le_l, py_le_r. simpl.
    now rewrite (num_leb_refl x Hx), (num_leb_refl y Hy).
Qed.

Lemma filter_within_bounds_witness :
  snd (get_filtered_instances (of_Z 2) (of_Z 2) (Fin 8) (Fin 8) None
         "us-east-1" None None Example.ok)
  = Ok [Example.m6i; Example.m5] /\
  In Example.m5 [Example.m6i; Example.m5] /\
  exists x y,
    to_num (cores Example.m5) = Ok x /\ to_num (ram Example.m5) = Ok y /\
    num_leb (of_Z 2) x = true /\ num_leb x (of_Z 2) = true /\
    num_leb (Fin 8) y = true /\ num_leb y (Fin 8) = true.
Proof.
  split; [ reflexivity | ]. split; [ right; left; reflexivity | ].
  apply (proj1 filter_within_bounds (of_Z 2) (of_Z 2) (Fin 8) (Fin 8) None
           "us-east-1" None None Example.ok [Example.m6i; Example.m5]).
  - reflexivity.
  - right; left; reflexivity.
Defined.

(** ** The interruption ceiling *)

(** C2: when a ceiling [m] on the interruption percentage is given, every
    returned candidate carries the label of the index [r_value] that the
    Linux sub-map of the region records for its type, and the upper bound
    that index resolves to does not exceed [m] ([r_max > m] is false; for an
    integer ceiling [k] this is [r_max <= k]).  With the ceiling 0 the
    returned list is empty. *)
Theorem filter_respects_interruption_ceiling :
  forall (min_cores max_cores min_ram max_ram m : num) (region : string)
         (max_usd : option num) (instance_types : option (list string))
         (resp : response) (l : list candidate),
    snd (get_filtered_instances min_cores max_cores min_ram max_ram
           (Some m) region max_usd instance_types resp) = Ok l ->
    (forall c, In c l ->
       exists data spot_advisor r_value,
         json_loads_text resp = Ok data /\
         py_get data "spot_advisor" (PDict []) = Ok spot_advisor /\
         r_value_of spot_advisor region (instance_type c) = Ok r_value /\
         frequency_of_interruption c = freq_label_of r_value /\
         num_ltb m (of_Z (r_max_of r_value)) = false /\
         (forall k, m = of_Z k -> r_max_of r_value <= k))
    /\ (m = of_Z 0 -> l = []).
Proof.
  intros a b c d m region mu types resp l H.
  assert (forall cand, In cand l ->
            exists data spot_advisor r_value,
              json_loads_text resp = Ok data /\
              py_get data "spot_advisor" (PDict []) = Ok spot_advisor /\
              r_value_of spot_advisor region (instance_type cand)
                = Ok r_value /\
              frequency_of_interruption cand = freq_label_of r_value /\
              num_ltb m (of_Z (r_max_of r_value)) = false) as Main.
  { intros cand Hc.
    destruct (get_filtered_In _ _ _ _ _ _ _ _ _ _ _ H Hc)
      as (_ & data & itd & sa & items & it & details
          & Hd & _ & Hsa & _ & _ & Hb).
    apply loop_body_Some in Hb.
    destruct Hb as (_ & cs & rg & rd & ld & _ & _ & _ & _ & Hrd & Hld & _ & He).
    apply emit_Some in He.
    destruct He as (e & ds & rv & He & _ & Hrv & -> & Hm). simpl.
    exists data, sa, rv. repeat split; trivial.
    - unfold r_value_of. now rewrite Hrd; simpl; rewrite Hld; simpl;
        rewrite He; simpl.
    - now apply Hm. }
  split.
  - intros cand Hc. destruct (Main cand Hc) as (data & sa & rv & H1 & H2 & H3 & H4 & H5).
    exists data, sa, rv. repeat split; trivial.
    intros k ->. rewrite num_ltb_of_Z in H5. now apply Z.ltb_ge.
  - intros ->. destruct l as [ | cand l']; [ reflexivity | exfalso ].
    destruct (Main cand (or_introl eq_refl))
      as (_ & _ & rv & _ & _ & _ & _ & H5).
    rewrite num_ltb_of_Z in H5. apply Z.ltb_ge in H5.
    pose proof (r_max_of_bounds rv). lia.
Qed.

Lemma filter_respects_interruption_ceiling_witness :
  snd (get_filtered_instances (of_Z 0) PosInf (Fin 0) PosInf
         (Some (of_Z 11)) "us-east-1" None None Example.ok)
  = Ok [Example.m6i; Example.m5] /\
  ((forall c, In c [Example.m6i; Example.m5] ->
      exists data spot_advisor r_value,
        json_loads_text Example.ok = Ok data /\
        py_get data "spot_advisor" (PDict []) = Ok spot_advisor /\
        r_value_of spot_advisor "us-east-1" (instance_type c) = Ok r_value /\
        frequency_of_interruption c = freq_label_of r_value /\
        num_ltb (of_Z 11) (of_Z (r_max_of r_value)) = false /\
        (forall k, of_Z 11 = of_Z k -> r_max_of r_value <= k))
   /\ (of_Z 11 = of_Z 0 -> [Example.m6i; Example.m5] = [])).
Proof.
  split; [ reflexivity | ].
  apply (filter_respects_interruption_ceiling (of_Z 0) PosInf (Fin 0) PosInf
           (of_Z 11) "us-east-1" None None Example.ok).
  reflexivity.
Defined.

Example ceiling_zero_excludes_all :
  get_filtered_instances (of_Z 0) PosInf (Fin 0) PosInf (Some (of_Z 0))
    "us-east-1" None None Example.ok = ([], Ok []).
Proof. reflexivity. Qed.

Example ceiling_on_the_upper_bound :
  get_filtered_instances (of_Z 0) PosInf (Fin 0) PosInf (Some (of_Z 12))
    "us-east-1" None (Some ["c6i"]) Example.ok = ([], Ok []).
Proof. reflexivity. Qed.

(** ** The Linux sub-map *)

Lemma filter_loop_linux_of (min_cores max_cores min_ram max_ram : num)
    (max_interruption : option num) (region : string)
    (instance_types : option (list string)) (sa sa' : pyval)
    (items : list (string * pyval)) :
  linux_of sa region = linux_of sa' region ->
  filter_loop min_cores max_cores min_ram max_ram max_interruption region
    instance_types sa items
  = filter_loop min_cores max_cores min_ram max_ram max_interruption region
      instance_types sa' items.
Proof.
  intros H. induction items as [ | [it_type details] rest IH]; simpl.
  - reflexivity.
  - now rewrite !loop_body_linux_of, H, IH.
Qed.

(** C6: the filter has no parameter for the requested operating system and
    reads the advisor's per-region data through the ["Linux"] sub-map only:
    two documents whose Linux sub-maps for the region agree give the same
    result, whatever their other sub-maps hold.  A returned candidate's
    region is in the document and its type is in the region's Linux
    sub-map; an entry for which either is absent is not returned.  The
    call in [main] gives the same result for every value of [--os]. *)
Theorem filter_reads_linux_only :
  (forall (min_cores max_cores min_ram max_ram : num)
          (max_interruption : option num) (region : string)
          (max_usd : option num) (instance_types : option (list string))
          (status : Z) (instance_types_data sa sa' : pyval),
     linux_of sa region = linux_of sa' region ->
     get_filtered_instances min_cores max_cores min_ram max_ram
       max_interruption region max_usd instance_types
       (mkResponse status (Ok (advisor_document instance_types_data sa)))
     = get_filtered_instances min_cores max_cores min_ram max_ram
         max_interruption region max_usd instance_types
         (mkResponse status (Ok (advisor_document instance_types_data sa'))))
  /\
  (forall (min_cores max_cores min_ram max_ram : num)
          (max_interruption : option num) (region : string)
          (max_usd : option num) (instance_types : option (list string))
          (resp : response) (l : list candidate) (c : candidate),
     snd (get_filtered_instances min_cores max_cores min_ram max_ram
            max_interruption region max_usd instance_types resp) = Ok l ->
     In c l ->
     exists data spot_advisor linux_data,
       json_loads_text resp = Ok data /\
       py_get data "spot_advisor" (PDict []) = Ok spot_advisor /\
       linux_of spot_advisor region = Ok (Some linux_data) /\
       py_in (instance_type c) linux_data = Ok true)
  /\
  (forall (a : Z) (b c d : num) (mi : option Z) (region os os' : string)
          (it : option string) (mu : option num) (resp : response),
     filtered_instances_of (mkArguments a b c d mi region os it mu) resp
     = filtered_instances_of (mkArguments a b c d mi region os' it mu) resp).
Proof.
  split; [ | split; [ | reflexivity ] ].
  - intros a b c d mi region mu types status itd sa sa' H.
    unfold get_filtered_instances, advisor_document. simpl.
    destruct (status =? 200); [ | reflexivity ]. f_equal.
    destruct (py_items itd) as [items | e]; simpl; [ | reflexivity ].
    now apply filter_loop_linux_of.
  - intros a b c d mi region mu types resp l cand H Hc.
    destruct (get_filtered_In _ _ _ _ _ _ _ _ _ _ _ H Hc)
      as (_ & data & itd & sa & items & it & details
          & Hd & _ & Hsa & _ & _ & Hb).
    apply loop_body_Some in Hb.
    destruct Hb as (_ & cs & rg & rd & ld & _ & _ & _ & Hr & Hrd & Hld & Hin & He).
    apply emit_Some in He. destruct He as (e & ds & rv & _ & _ & _ & -> & _).
    exists data, sa, ld. repeat split; trivial.
    unfold linux_of. now rewrite Hr; simpl; rewrite Hrd; simpl; rewrite Hld.
Qed.

Lemma filter_reads_linux_only_witness :
  (linux_of Example.spot_advisor "us-east-1"
   = linux_of
       (PDict [("us-east-1",
                PDict [("Windows", PNone);
                       ("Linux", Example.linux_east)])])
       "us-east-1"
   /\
   get_filtered_instances (of_Z 0) PosInf (Fin 0) PosInf None "us-east-1"
     None None
     (mkResponse 200
        (Ok (advisor_document Example.instance_types_data
               Example.spot_advisor)))
   = get_filtered_instances (of_Z 0) PosInf (Fin 0) PosInf None "us-east-1"
       None None
       (mkResponse 200
          (Ok (advisor_document Example.instance_types_data
                 (PDict [("us-east-1",
                          PDict [("Windows", PNone);
                                 ("Linux", Example.linux_east)])])))))
  /\
  (snd (get_filtered_instances (of_Z 1) (of_Z 4) (Fin 4) (Fin 16) None
          "us-east-1" None (Some ["6i"]) Example.ok)
   = Ok [Example.m6i; Example.c6i] /\
   In Example.c6i [Example.m6i; Example.c6i] /\
   exists data spot_advisor linux_data,
     json_loads_text Example.ok = Ok data /\
     py_get data "spot_advisor" (PDict []) = Ok spot_advisor /\
     linux_of spot_advisor "us-east-1" = Ok (Some linux_data) /\
     py_in (instance_type Example.c6i) linux_data = Ok true).
Proof.
  split.
  { split; [ reflexivity | ].
    apply (proj1 filter_reads_linux_only). reflexivity. }
  split; [ reflexivity | ]. split; [ right; left; reflexivity | ].
  apply (proj1 (proj2 filter_reads_linux_only) (of_Z 1) (of_Z 4) (Fin 4)
           (Fin 16) None "us-east-1" None (Some ["6i"]) Example.ok
           [Example.m6i; Example.c6i]).
  - reflexivity.
  - right; left; reflexivity.
Defined.

Example windows_only_type_is_excluded :
  get_filtered_instances (of_Z 0) PosInf (Fin 0) PosInf None "us-east-1"
    None (Some ["t3"]) Example.ok = ([], Ok []).
Proof. reflexivity. Qed.

Example region_without_linux_is_excluded :
  get_filtered_instances (of_Z 0) PosInf (Fin 0) PosInf None "eu-west-1"
    None None Example.ok = ([], Ok []).
Proof. reflexivity. Qed.

Example absent_region_is_excluded :
  get_filtered_instances (of_Z 0) PosInf (Fin 0) PosInf None "ap-south-1"
    None None Example.ok = ([], Ok []).
Proof. reflexivity. Qed.

(** ** The substring filter *)

Lemma any_in_spec (l : list string) (name : string) :
  any_in l name = true <->
  exists s pre suf, In s l /\ name = (pre ++ s ++ suf)%string.
Proof.
  unfold any_in. rewrite existsb_exists. split.
  - intros (s & Hin & Hc). apply contains_spec in Hc.
    destruct Hc as (pre & suf & E). now exists s, pre, suf.
  - intros (s & pre & suf & Hin & E). exists s. split; [ assumption | ].
    apply contains_spec. now exists pre, suf.
Qed.

Lemma type_rejected_nonempty (l : list string) (name : string) :
  l <> [] -> type_rejected (Some l) name = negb (any_in l name).
Proof. destruct l; [ congruence | reflexivity ]. Qed.

Lemma loop_body_not_rejected (min_cores max_cores min_ram max_ram : num)
    (max_interruption : option num) (region : string)
    (instance_types : option (list string)) (sa : pyval)
    (it_type : string) (details : pyval) :
  type_rejected instance_types it_type = false ->
  loop_body min_cores max_cores min_ram max_ram max_interruption region
    instance_types sa it_type details
  = loop_body min_cores max_cores min_ram max_ram max_interruption region
      None sa it_type details.
Proof. unfold loop_body. now intros ->. Qed.

Lemma filter_loop_substrings (min_cores max_cores min_ram max_ram : num)
    (max_interruption : option num) (region : string) (l : list string)
    (sa : pyval) (items : list (string * pyval)) :
  l <> [] ->
  filter_loop min_cores max_cores min_ram max_ram max_interruption region
    (Some l) sa items
  = filter_loop min_cores max_cores min_ram max_ram max_interruption region
      None sa (filter (fun e => any_in l (fst e)) items).
Proof.
  intros Hl. induction items as [ | [it_type details] rest IH]; simpl.
  - reflexivity.
  - destruct (any_in l it_type) eqn:E; simpl.
    + rewrite <- IH. f_equal. apply loop_body_not_rejected.
      now rewrite type_rejected_nonempty, E.
    + rewrite <- IH. unfold loop_body at 1.
      rewrite type_rejected_nonempty, E by assumption. simpl.
      now destruct (filter_loop _ _ _ _ _ _ _ _ rest).
Qed.

Example substring_6i :
  get_filtered_instances (of_Z 0) PosInf (Fin 0) PosInf None "us-east-1"
    None (Some ["6i"])
    (mkResponse 200
       (Ok (advisor_document
              (PDict [("m6i.large", Example.spec 2 (PInt 8));
                      ("m5.large", Example.spec 2 (PInt 8))])
              Example.spot_advisor)))
  = ([], Ok [mkCandidate "m6i.large" (PInt 2) (PInt 8) (PInt 70) "5-10%"]).
Proof. reflexivity. Qed.

(** ** Unknown interruption indices *)

Lemma unresolved_find (r_value : pyval) :
  unresolved r_value ->
  find (fun r => py_eq_int (index r) r_value) ranges = None.
Proof.
  intros H. destruct (find _ ranges) as [r | ] eqn:E; [ | reflexivity ].
  apply find_some in E. destruct E as [Hin Hf].
  rewrite (H r Hin) in Hf. discriminate.
Qed.

(** C8: an interruption index that no entry of the table has resolves to
    the label ["Unknown"] and to the upper bound 100.  On a Linux entry
    that holds such an index the code under [if it_type in linux_data]
    does not raise: it appends the candidate, labelled ["Unknown"], unless
    a ceiling below 100 excludes it.  Every returned candidate whose
    recorded index is such an index carries the label ["Unknown"]. *)
Theorem unknown_index_label :
  forall r_value : pyval, unresolved r_value ->
    freq_label_of r_value = "Unknown" /\
    (forall (max_interruption : option num) (it_type : string)
            (cores ram_gb : pyval) (d e : list (string * pyval)),
       dict_lookup it_type d = Some (PDict e) ->
       py_get (PDict e) "r" PNone = Ok r_value ->
       exists discount,
         py_get (PDict e) "s" PNone = Ok discount /\
         emit max_interruption it_type cores ram_gb (PDict d)
         = Ok (if match max_interruption with
                  | Some m => num_ltb m (of_Z 100)
                  | None => false
                  end
               then None
               else Some (mkCandidate it_type cores ram_gb discount
                            "Unknown"))) /\
    (forall (min_cores max_cores min_ram max_ram : num)
            (max_interruption : option num) (region : string)
            (max_usd : option num) (instance_types : option (list string))
            (resp : response) (data spot_advisor : pyval)
            (l : list candidate) (c : candidate),
       snd (get_filtered_instances min_cores max_cores min_ram max_ram
              max_interruption region max_usd instance_types resp) = Ok l ->
       In c l ->
       json_loads_text resp = Ok data ->
       py_get data "spot_advisor" (PDict []) = Ok spot_advisor ->
       r_value_of spot_advisor region (instance_type c) = Ok r_value ->
       frequency_of_interruption c = "Unknown").
Proof.
  intros r_value Hu.
  assert (freq_label_of r_value = "Unknown") as HL.
  { unfold freq_label_of, next_range. now rewrite unresolved_find. }
  assert (r_max_of r_value = 100) as HM.
  { unfold r_max_of, next_range. now rewrite unresolved_find. }
  split; [ exact HL | split ].
  - intros mi it cs rg d e Hd Hr.
    exists (match dict_lookup "s" e with Some x => x | None => PNone end).
    split; [ reflexivity | ].
    unfold emit. simpl py_getitem. rewrite Hd. simpl bind.
    simpl in Hr. injection Hr as Hr. rewrite Hr, HL, HM.
    destruct mi as [m | ]; [ | reflexivity ].
    now destruct (num_ltb m (of_Z 100)).
  - intros a b c d mi region mu types resp data sa l cand H Hc Hd Hsa Hrv.
    destruct (get_filtered_In _ _ _ _ _ _ _ _ _ _ _ H Hc)
      as (_ & data' & itd & sa' & items & it & details
          & Hd' & _ & Hsa' & _ & _ & Hb).
    rewrite Hd in Hd'. injection Hd' as <-.
    rewrite Hsa in Hsa'. injection Hsa' as <-.
    apply loop_body_Some in Hb.
    destruct Hb as (_ & cs & rg & rd & ld & _ & _ & _ & _ & Hrd & Hld & _ & He).
    apply emit_Some in He.
    destruct He as (e & ds & rv & He & _ & Hr & -> & _). simpl in *.
    unfold r_value_of in Hrv.
    rewrite Hrd in Hrv; simpl in Hrv. rewrite Hld in Hrv; simpl in Hrv.
    rewrite He in Hrv; simpl in Hrv. rewrite Hr in Hrv.
    injection Hrv as ->. exact HL.
Qed.

Lemma unknown_index_label_witness :
  unresolved (PInt 7) /\
  freq_label_of (PInt 7) = "Unknown" /\
  emit None "x9.odd" (PInt 4) (PFloat (Fin 16)) Example.linux_east
  = Ok (Some Example.x9).
Proof.
  assert (unresolved (PInt 7)) as Hu.
  { intros r Hr. simpl in Hr.
    repeat (destruct Hr as [<- | Hr]; [ reflexivity | ]). destruct Hr. }
  split; [ exact Hu | ].
  destruct (unknown_index_label (PInt 7) Hu) as (HL & He & _).
  split; [ exact HL | ].
  destruct (He None "x9.odd" (PInt 4) (PFloat (Fin 16))
              [ ("m6i.large", Example.advice 70 (PInt 1));
                ("m5.large", Example.advice 65 (PInt 0));
                ("c6i.xlarge", Example.advice 60 (PInt 2));
                ("x9.odd", Example.advice 50 (PInt 7));
                ("r6i.4xlarge", Example.advice 55 (PInt 4)) ]
              [("s", PInt 50); ("r", PInt 7)] eq_refl eq_refl)
    as (ds & Hs & H).
  injection Hs as <-. exact H.
Defined.

Example index_as_float_resolves : freq_label_of (PFloat (Fin 1)) = "5-10%".
Proof. reflexivity. Qed.

Example index_as_string_is_unknown : freq_label_of (PStr "1") = "Unknown".
Proof. reflexivity. Qed.

Example missing_index_is_unknown :
  emit (Some (of_Z 100)) "a1.large" (PInt 1) (PInt 2)
    (PDict [("a1.large", PDict [("s", PInt 10)])])
  = Ok (Some (mkCandidate "a1.large" (PInt 1) (PInt 2) (PInt 10) "Unknown")).
Proof. reflexivity. Qed.

Example unknown_under_a_ceiling :
  get_filtered_instances (of_Z 0) PosInf (Fin 0) PosInf (Some (of_Z 99))
    "us-east-1" None (Some ["x9"]) Example.ok = ([], Ok []).
Proof. reflexivity. Qed.

(** ** Price enrichment *)

Lemma NoDup_map_In_eq {A B : Type} (f : A -> B) (l : list A) (a b : A) :
  NoDup (map f l) -> In a l -> In b l -> f a = f b -> a = b.
Proof.
  induction l as [ | x l IH]; simpl; intros Hnd Ha Hb E; [ destruct Ha | ].
  inversion Hnd as [ | y l' Hx Hnd' ]; subst.
  destruct Ha as [-> | Ha], Hb as [-> | Hb]; trivial.
  - exfalso. apply Hx. rewrite E. now apply in_map.
  - exfalso. apply Hx. rewrite <- E. now apply in_map.
  - now apply IH.
Qed.

Section EnrichmentFacts.

Variable py_float : pyval -> result num.
Variable max_usd : option num.

Let rows := table_rows py_float max_usd.

Lemma enrich_col_instance (t : task) (r : row) :
  In r (snd (enrich py_float max_usd t)) ->
  col_instance r = instance_type (fst t).
Proof.
  destruct t as [instance outcome]. unfold enrich.
  destruct (try_price py_float max_usd outcome) as [[price | ] | e]; simpl;
    intros H; try contradiction; destruct H as [<- | []]; reflexivity.
Qed.

Lemma table_rows_app (l1 l2 : list task) :
  rows (l1 ++ l2) = rows l1 ++ rows l2.
Proof. apply flat_map_app. Qed.

Lemma printed_app (l1 l2 : list task) :
  printed py_float max_usd (l1 ++ l2)
  = printed py_float max_usd l1 ++ printed py_float max_usd l2.
Proof. apply flat_map_app. Qed.

(** A row of the table comes from a finished task that adds a row. *)
Lemma table_rows_In (completed : list task) (r : row) :
  In r (rows completed) ->
  exists t, In t completed /\ In r (snd (enrich py_float max_usd t)).
Proof.
  unfold rows, table_rows. rewrite in_flat_map. intros (t & Ht & Hr).
  now exists t.
Qed.

Lemma enrich_priced (instance : candidate) (price : pyval) (x : num) :
  is_price price = true -> py_float price = Ok x ->
  enrich py_float max_usd (instance, Ok price)
  = if over_ceiling max_usd x then ([], [])
    else ([], [add_row instance (PFloat x)]).
Proof.
  intros Hp Hf. unfold enrich, try_price. simpl. rewrite Hp, Hf. simpl.
  now destruct (over_ceiling max_usd x).
Qed.

End EnrichmentFacts.

(** C3: a candidate whose lookup gives a numeric price above the supplied
    ceiling adds no row, and no row of the table bears its instance type
    (the instance types of a batch are pairwise distinct); without a
    ceiling every candidate of the batch has its row, in completion order,
    and a candidate without a price ([None], ["N/A"], a failed lookup or
    conversion) has a row whose price is ["N/A"]. *)
Theorem price_ceiling :
  forall py_float : pyval -> result num,
    (forall (m : num) (instance : candidate) (price : pyval) (x : num)
            (completed : list task),
       is_price price = true -> py_float price = Ok x ->
       num_ltb m x = true ->
       enrich py_float (Some m) (instance, Ok price) = ([], []) /\
       (In (instance, Ok price) completed ->
        NoDup (map (fun t : task => instance_type (fst t)) completed) ->
        ~ In (instance_type instance)
             (map col_instance (table_rows py_float (Some m) completed))))
    /\
    (forall completed : list task,
       map col_instance (table_rows py_float None completed)
       = map (fun t : task => instance_type (fst t)) completed)
    /\
    (forall (instance : candidate) (outcome : result pyval),
       outcome = Ok PNone \/ outcome = Ok NA \/
       (exists exc, outcome = Raise exc) \/
       (exists price exc, outcome = Ok price /\ is_price price = true /\
                          py_float price = Raise exc) ->
       snd (enrich py_float None (instance, outcome))
       = [mkRow (instance_type instance) (cores instance) (ram instance)
            (discount instance) (frequency_of_interruption instance) NA]).
Proof.
  intros py_float. split; [ | split ].
  - intros m instance price x completed Hp Hf Hlt.
    assert (enrich py_float (Some m) (instance, Ok price) = ([], [])) as He.
    { rewrite (enrich_priced _ _ _ _ x Hp Hf). simpl. now rewrite Hlt. }
    split; [ exact He | ].
    intros Hin Hnd Hrow. apply in_map_iff in Hrow.
    destruct Hrow as (r & Hr & Hrin).
    apply table_rows_In in Hrin. destruct Hrin as (t & Ht & Hrt).
    pose proof (enrich_col_instance _ _ _ _ Hrt) as Hc.
    assert (t = (instance, Ok price)) as ->.
    { apply (NoDup_map_In_eq (fun t : task => instance_type (fst t))
               completed); trivial.
      simpl. congruence. }
    rewrite He in Hrt. destruct Hrt.
  - induction completed as [ | [instance outcome] rest IH]; [ reflexivity | ].
    unfold table_rows in *. simpl. rewrite map_app, IH. f_equal.
    unfold enrich, try_price.
    destruct outcome as [price | e]; simpl; [ | reflexivity ].
    destruct (is_price price); [ | reflexivity ].
    destruct (py_float price); reflexivity.
  - intros instance outcome [-> | [-> | [(exc & ->) | (p & exc & -> & Hp & Hf)]]];
      try reflexivity.
    unfold enrich, try_price. simpl. now rewrite Hp, Hf.
Qed.

Lemma price_ceiling_witness :
  is_price (PStr "0.5000") = true /\
  Example.float (PStr "0.5000") = Ok (Fin (1 # 2)) /\
  num_ltb (Fin (1 # 4)) (Fin (1 # 2)) = true /\
  In (Example.m6i, Ok (PStr "0.5000")) Example.batch /\
  NoDup (map (fun t : task => instance_type (fst t)) Example.batch) /\
  enrich Example.float (Some (Fin (1 # 4))) (Example.m6i, Ok (PStr "0.5000"))
  = ([], []) /\
  ~ In (instance_type Example.m6i)
       (map col_instance
          (table_rows Example.float (Some (Fin (1 # 4))) Example.batch)).
Proof.
  assert (In (Example.m6i, Ok (PStr "0.5000")) Example.batch) as Hin.
  { right; left; reflexivity. }
  assert (NoDup (map (fun t : task => instance_type (fst t)) Example.batch))
    as Hnd.
  { simpl. repeat constructor; simpl; intuition discriminate. }
  destruct (proj1 (price_ceiling Example.float) (Fin (1 # 4)) Example.m6i
              (PStr "0.5000") (Fin (1 # 2)) Example.batch
              eq_refl eq_refl eq_refl) as [He Ha].
  repeat split; trivial. now apply Ha.
Defined.

Example ceiling_drops_the_row :
  table_rows Example.float (Some (Fin (1 # 4))) Example.batch
  = [ add_row Example.c6i (PFloat (Fin (1 # 16)));
      add_row Example.m5 (PFloat (Fin (1 # 4))) ].
Proof. reflexivity. Qed.

Example no_ceiling_keeps_all :
  table_rows Example.float None
    [ (Example.c6i, Ok PNone);
      (Example.m6i, Ok (PStr "0.5000"));
      (Example.x9, Ok (PStr "N/A"));
      (Example.m5, Raise RequestException) ]
  = [ add_row Example.c6i NA;
      add_row Example.m6i (PFloat (Fin (1 # 2)));
      add_row Example.x9 NA;
      add_row Example.m5 NA ].
Proof. reflexivity. Qed.

Lemma sibling_above_ceiling_counterexample :
  In (Example.m5, Ok (PStr "0.5000"))
     [ (Example.m6i, Raise RequestException);
       (Example.m5, Ok (PStr "0.5000")) ] /\
  Example.float (PStr "0.5000") = Ok (Fin (1 # 2)) /\
  table_rows Example.float (Some (Fin (1 # 4)))
    [ (Example.m6i, Raise RequestException);
      (Example.m5, Ok (PStr "0.5000")) ]
  = [ mkRow "m6i.large" (PInt 2) (PFloat (Fin 8)) (PInt 70) "5-10%"
        (PStr "N/A") ] /\
  ~ In (instance_type Example.m5)
       (map col_instance
          (table_rows Example.float (Some (Fin (1 # 4)))
             [ (Example.m6i, Raise RequestException);
               (Example.m5, Ok (PStr "0.5000")) ])).
Proof.
  split; [ right; left; reflexivity | ]. split; [ reflexivity | ].
  split; [ reflexivity | ].
  simpl. intros [H | []]. discriminate.
Qed.

Lemma enrich_unpriced (py_float : pyval -> result num)
    (max_usd : option num) (instance : candidate) (price : pyval) :
  is_price price = false ->
  enrich py_float max_usd (instance, Ok price)
  = ([], [mkRow (instance_type instance) (cores instance) (ram instance)
            (discount instance) (frequency_of_interruption instance) NA]).
Proof.
  intros Hp. unfold enrich, try_price. simpl. rewrite Hp.
  destruct price; try discriminate; [ reflexivity | ].
  simpl in Hp. apply negb_false_iff, String.eqb_eq in Hp. now subst.
Qed.

Lemma add_row_nonzero (instance : candidate) (x : num) :
  num_truthy x = true ->
  add_row instance (PFloat x)
  = mkRow (instance_type instance) (cores instance) (ram instance)
      (discount instance) (frequency_of_interruption instance) (PFloat x).
Proof. intros H. unfold add_row, py_or. simpl. now rewrite H. Qed.

(** C4, as amended: an exception of one candidate's lookup is caught: the
    candidate gets the row with its five cells and the price ["N/A"], the
    message of the handler is printed, and the rows and messages of the
    tasks finished before and after it are those of the batch without the
    failing task.  So a sibling whose lookup gives a price that is not
    zero and not above the ceiling has the row with its five cells and
    that price, a sibling without a price has the row with ["N/A"], and a
    sibling whose price is above the ceiling adds no row, as in a batch
    without the failure. *)
Theorem enrichment_isolates_failures :
  forall (py_float : pyval -> result num) (max_usd : option num)
         (before after : list task) (instance : candidate) (exc : exn),
    table_rows py_float max_usd (before ++ (instance, Raise exc) :: after)
    = table_rows py_float max_usd before
      ++ mkRow (instance_type instance) (cores instance) (ram instance)
           (discount instance) (frequency_of_interruption instance)
           (PStr "N/A")
         :: table_rows py_float max_usd after
    /\ printed py_float max_usd (before ++ (instance, Raise exc) :: after)
       = printed py_float max_usd before
         ++ ErrorFetchingPrice (instance_type instance) exc
            :: printed py_float max_usd after
    /\ (forall (sibling : candidate) (price : pyval) (x : num),
          In (sibling, Ok price) (before ++ after) ->
          is_price price = true -> py_float price = Ok x ->
          num_truthy x = true -> over_ceiling max_usd x = false ->
          In (mkRow (instance_type sibling) (cores sibling) (ram sibling)
                (discount sibling) (frequency_of_interruption sibling)
                (PFloat x))
             (table_rows py_float max_usd
                (before ++ (instance, Raise exc) :: after)))
    /\ (forall (sibling : candidate) (price : pyval),
          In (sibling, Ok price) (before ++ after) ->
          is_price price = false ->
          In (mkRow (instance_type sibling) (cores sibling) (ram sibling)
                (discount sibling) (frequency_of_interruption sibling)
                (PStr "N/A"))
             (table_rows py_float max_usd
                (before ++ (instance, Raise exc) :: after)))
    /\ (forall (sibling : candidate) (price : pyval) (x : num),
          is_price price = true -> py_float price = Ok x ->
          over_ceiling max_usd x = true ->
          enrich py_float max_usd (sibling, Ok price) = ([], [])).
Proof.
  intros py_float max_usd before after instance exc.
  assert (table_rows py_float max_usd
            (before ++ (instance, Raise exc) :: after)
          = table_rows py_float max_usd before
            ++ mkRow (instance_type instance) (cores instance)
                 (ram instance) (discount instance)
                 (frequency_of_interruption instance) (PStr "N/A")
               :: table_rows py_float max_usd after) as HR.
  { now rewrite table_rows_app. }
  assert (forall t r, In t (before ++ after) ->
            In r (snd (enrich py_float max_usd t)) ->
            In r (table_rows py_float max_usd
                    (before ++ (instance, Raise exc) :: after))) as Hrow.
  { intros t r Hin Hr. rewrite HR.
    assert (forall l, In t l -> In r (table_rows py_float max_usd l)) as Hl.
    { intros l Hl. unfold table_rows. apply in_flat_map. now exists t. }
    apply in_app_or in Hin. apply in_or_app.
    destruct Hin as [Hin | Hin]; [ left | right; right ]; now apply Hl. }
  split; [ exact HR | ]. split; [ now rewrite printed_app | ].
  split; [ | split ].
  - intros sibling price x Hin Hp Hf Ht Hc.
    apply (Hrow (sibling, Ok price)); [ assumption | ].
    rewrite (enrich_priced _ _ _ _ x Hp Hf), Hc.
    rewrite (add_row_nonzero _ _ Ht). now left.
  - intros sibling price Hin Hp.
    apply (Hrow (sibling, Ok price)); [ assumption | ].
    rewrite (enrich_unpriced _ _ _ _ Hp). now left.
  - intros sibling price x Hp Hf Hc.
    now rewrite (enrich_priced _ _ _ _ x Hp Hf), Hc.
Qed.

Lemma enrichment_isolates_failures_witness :
  In (Example.m5, Ok (PStr "0.2500"))
     ([ (Example.c6i, Ok (PStr "0.0625")) ]
      ++ [ (Example.m5, Ok (PStr "0.2500")) ]) /\
  is_price (PStr "0.2500") = true /\
  Example.float (PStr "0.2500") = Ok (Fin (1 # 4)) /\
  num_truthy (Fin (1 # 4)) = true /\
  over_ceiling (Some (Fin 1)) (Fin (1 # 4)) = false /\
  In (mkRow "m5.large" (PInt 2) (PFloat (Fin 8)) (PInt 65) "<5%"
        (PFloat (Fin (1 # 4))))
     (table_rows Example.float (Some (Fin 1))
        ([ (Example.c6i, Ok (PStr "0.0625")) ]
         ++ (Example.m6i, Raise RequestException)
            :: [ (Example.m5, Ok (PStr "0.2500")) ])).
Proof.
  assert (In (Example.m5, Ok (PStr "0.2500"))
            ([ (Example.c6i, Ok (PStr "0.0625")) ]
             ++ [ (Example.m5, Ok (PStr "0.2500")) ])) as Hin.
  { right; left; reflexivity. }
  split; [ exact Hin | ]. repeat (split; [ reflexivity | ]).
  destruct (enrichment_isolates_failures Example.float (Some (Fin 1))
              [ (Example.c6i, Ok (PStr "0.0625")) ]
              [ (Example.m5, Ok (PStr "0.2500")) ]
              Example.m6i RequestException) as (_ & _ & Hs & _).
  exact (Hs Example.m5 (PStr "0.2500") (Fin (1 # 4)) Hin
           eq_refl eq_refl eq_refl eq_refl).
Defined.

Example one_failure_of_three :
  display_instance_info Example.float (Some (Fin 1))
    [ (Example.c6i, Ok (PStr "0.0625"));
      (Example.m6i, Raise RequestException);
      (Example.m5, Ok (PStr "0.2500")) ]
  = [ ErrorFetchingPrice "m6i.large" RequestException;
      Table field_names
        [ add_row Example.c6i (PFloat (Fin (1 # 16)));
          add_row Example.m6i NA;
          add_row Example.m5 (PFloat (Fin (1 # 4))) ] ].
Proof. reflexivity. Qed.

Example unparsable_price_is_caught :
  display_instance_info Example.float None [ (Example.m5, Ok (PStr "N/A*")) ]
  = [ ErrorFetchingPrice "m5.large" ValueError;
      Table field_names [ add_row Example.m5 NA ] ].
Proof. reflexivity. Qed.

(** C10: a lookup that gives the number 0.0 never shows 0.0: whenever the
    candidate has a row (no ceiling, or a ceiling that 0.0 does not
    exceed), its price cell is ["N/A"].  A price that is not zero and lies
    below the ceiling, or any such price when there is no ceiling, is shown
    as that number. *)
Theorem zero_price_shown_as_unavailable :
  forall (py_float : pyval -> result num) (max_usd : option num)
         (instance : candidate) (price : pyval) (x : num),
    is_price price = true -> py_float price = Ok x ->
    ((exists q, x = Fin q /\ (q == 0)%Q) ->
     (forall r, In r (snd (enrich py_float max_usd (instance, Ok price))) ->
                col_usd r = NA) /\
     (over_ceiling max_usd x = false ->
      exists r, enrich py_float max_usd (instance, Ok price) = ([], [r]) /\
                col_instance r = instance_type instance /\ col_usd r = NA))
    /\
    (~ (exists q, x = Fin q /\ (q == 0)%Q) ->
     max_usd = None \/ (exists m, max_usd = Some m /\ num_ltb x m = true) ->
     exists r, enrich py_float max_usd (instance, Ok price) = ([], [r]) /\
               col_instance r = instance_type instance /\
               col_usd r = PFloat x).
Proof.
  intros py_float max_usd instance price x Hp Hf.
  rewrite (enrich_priced _ _ _ _ x Hp Hf). split.
  - intros Hz. apply num_truthy_false in Hz.
    assert (col_usd (add_row instance (PFloat x)) = NA) as Hna.
    { unfold add_row, py_or. simpl. now rewrite Hz. }
    split.
    + destruct (over_ceiling max_usd x); simpl; intros r Hr;
        [ destruct Hr | ].
      destruct Hr as [<- | []]. exact Hna.
    + intros ->. exists (add_row instance (PFloat x)). now repeat split.
  - intros Hnz Hc.
    assert (num_truthy x = true) as Ht.
    { destruct (num_truthy x) eqn:E; [ reflexivity | ].
      now apply num_truthy_false in E. }
    assert (over_ceiling max_usd x = false) as ->.
    { destruct Hc as [-> | (m & -> & Hlt)]; [ reflexivity | ].
      simpl. now apply num_ltb_asym. }
    exists (add_row instance (PFloat x)). repeat split.
    unfold add_row, py_or. simpl. now rewrite Ht.
Qed.

Lemma zero_price_shown_as_unavailable_witness :
  is_price (PStr "0.0000") = true /\
  Example.float (PStr "0.0000") = Ok (Fin 0) /\
  (exists q, Fin 0 = Fin q /\ (q == 0)%Q) /\
  over_ceiling (Some (Fin (1 # 4))) (Fin 0) = false /\
  exists r,
    enrich Example.float (Some (Fin (1 # 4))) (Example.m6i, Ok (PStr "0.0000"))
    = ([], [r]) /\
    col_instance r = instance_type Example.m6i /\ col_usd r = NA.
Proof.
  assert (exists q, Fin 0 = Fin q /\ (q == 0)%Q) as Hz.
  { exists 0%Q. split; reflexivity. }
  split; [ reflexivity | ]. split; [ reflexivity | ].
  split; [ exact Hz | ]. split; [ reflexivity | ].
  apply (proj1 (zero_price_shown_as_unavailable Example.float
                  (Some (Fin (1 # 4))) Example.m6i (PStr "0.0000") (Fin 0)
                  eq_refl eq_refl) Hz).
  reflexivity.
Defined.

Example zero_price_row :
  table_rows Example.float None
    [ (Example.m6i, Ok (PStr "0.0000")); (Example.m5, Ok (PStr "0.0625")) ]
  = [ mkRow "m6i.large" (PInt 2) (PFloat (Fin 8)) (PInt 70) "5-10%"
        (PStr "N/A");
      mkRow "m5.large" (PInt 2) (PFloat (Fin 8)) (PInt 65) "<5%"
        (PFloat (Fin (1 # 16))) ].
Proof. reflexivity. Qed.

(** ** The exit status *)

Lemma fetch_failure_exit_status_counterexample :
  status_code Example.not_found <> 200 /\
  main Example.float Example.args
    (mkWorld (Ok Example.not_found) (Example.reversed (Ok PNone)))
  = ([ Line "Failed to retrieve Spot Advisor data: 404";
       Line "No instances match the given criteria." ], 0).
Proof. split; [ discriminate | reflexivity ]. Qed.

(** C5, as amended: when the advisor endpoint answers with a status other
    than 200, the program prints the diagnostic with the status, then the
    no-match message, and exits with status 0; when the endpoint answers
    200 and the filter returns no candidate, the program prints the
    no-match message and exits with status 0. *)
Theorem fetch_failure_and_no_match :
  (forall (py_float : pyval -> result num) (args : arguments) (w : world)
          (resp : response),
     advisor w = Ok resp -> status_code resp <> 200 ->
     main py_float args w
     = ([ Line ("Failed to retrieve Spot Advisor data: "
                ++ str_of_int (status_code resp))%string;
          Line "No instances match the given criteria." ], 0))
  /\
  (forall (py_float : pyval -> result num) (args : arguments) (w : world)
          (resp : response),
     advisor w = Ok resp -> status_code resp = 200 ->
     snd (filtered_instances_of args resp) = Ok [] ->
     main py_float args w
     = ([ Line "No instances match the given criteria." ], 0)).
Proof.
  split; intros py_float args w resp Hw Hs.
  - unfold main, filtered_instances_of, get_filtered_instances. rewrite Hw.
    apply Z.eqb_neq in Hs. now rewrite Hs.
  - unfold main. rewrite Hw.
    unfold filtered_instances_of, get_filtered_instances.
    rewrite Hs. simpl. now intros ->.
Qed.

Lemma fetch_failure_and_no_match_witness :
  (advisor (mkWorld (Ok (mkResponse 503 (Ok Example.data)))
              (Example.reversed (Ok PNone)))
   = Ok (mkResponse 503 (Ok Example.data)) /\
   status_code (mkResponse 503 (Ok Example.data)) <> 200 /\
   main Example.float Example.args
     (mkWorld (Ok (mkResponse 503 (Ok Example.data)))
        (Example.reversed (Ok PNone)))
   = ([ Line "Failed to retrieve Spot Advisor data: 503";
        Line "No instances match the given criteria." ], 0))
  /\
  (advisor (mkWorld (Ok Example.ok) (Example.reversed (Ok PNone)))
   = Ok Example.ok /\
   status_code Example.ok = 200 /\
   snd (filtered_instances_of
          (mkArguments 64 PosInf (Fin 0) PosInf None "us-east-1" "linux"
             None None) Example.ok) = Ok [] /\
   main Example.float
     (mkArguments 64 PosInf (Fin 0) PosInf None "us-east-1" "linux"
        None None)
     (mkWorld (Ok Example.ok) (Example.reversed (Ok PNone)))
   = ([ Line "No instances match the given criteria." ], 0)).
Proof.
  split.
  - split; [ reflexivity | ]. split; [ discriminate | ].
    apply (proj1 fetch_failure_and_no_match Example.float Example.args _
             (mkResponse 503 (Ok Example.data))); [ reflexivity | discriminate ].
  - split; [ reflexivity | ]. split; [ reflexivity | ].
    split; [ reflexivity | ].
    apply (proj2 fetch_failure_and_no_match Example.float _ _ Example.ok);
      reflexivity.
Defined.

Example run_end_to_end :
  main Example.float
    (mkArguments 1 (of_Z 4) (Fin 4) (Fin 16) None "us-east-1" "linux"
       (Some "6i,7i") (Some (Fin (1 # 10))))
    (mkWorld (Ok Example.ok) (Example.reversed (Ok (PStr "0.0625"))))
  = ([ Table field_names
         [ add_row Example.c6i (PFloat (Fin (1 # 16)));
           add_row Example.m6i (PFloat (Fin (1 # 16))) ] ], 0).
Proof. reflexivity. Qed.

Example run_with_malformed_entry :
  snd (main Example.float Example.args
         (mkWorld
            (Ok (mkResponse 200
                   (Ok (advisor_document
                          (PDict [("m6i.large", PDict [("cores", PInt 2)])])
                          Example.spot_advisor))))
            (Example.reversed (Ok PNone))))
  = 1.
Proof. reflexivity. Qed.

(** * Further properties of the program *)

(** ** The envelope of the price document *)

Lemma lstrip_outside (chars s : string) :
  starts_outside chars s = true -> lstrip chars s = s.
Proof.
  destruct s as [ | c s]; simpl; [ discriminate | ].
  now destruct (in_chars chars c).
Qed.

Lemma ends_outside_nonempty (chars s : string) :
  ends_outside chars s = true -> s <> EmptyString.
Proof. destruct s; [ discriminate | discriminate ]. Qed.

Lemma rstrip_String (chars : string) (c : ascii) (s : string) :
  rstrip chars (String c s)
  = match rstrip chars s with
    | EmptyString =>
        if in_chars chars c then EmptyString else String c EmptyString
    | r => String c r
    end.
Proof. reflexivity. Qed.

Lemma rstrip_outside (chars s : string) :
  ends_outside chars s = true -> rstrip chars s = s.
Proof.
  induction s as [ | c s IH]; [ discriminate | ].
  destruct s as [ | c' s'].
  - simpl. now destruct (in_chars chars c).
  - intros H. change (ends_outside chars (String c' s') = true) in H.
    now rewrite rstrip_String, (IH H).
Qed.

Lemma rstrip_snoc (chars s : string) (z : ascii) :
  in_chars chars z = true ->
  rstrip chars (s ++ String z EmptyString) = rstrip chars s.
Proof.
  intros Hz. induction s as [ | c s IH].
  - simpl. now rewrite Hz.
  - change (String c s ++ String z EmptyString)%string
      with (String c (s ++ String z EmptyString)).
    now rewrite !rstrip_String, IH.
Qed.

Lemma ends_outside_snoc (chars s : string) (z : ascii) :
  ends_outside chars (s ++ String z EmptyString) = negb (in_chars chars z).
Proof.
  induction s as [ | c s IH]; [ reflexivity | ].
  simpl. destruct (s ++ String z EmptyString)%string eqn:E.
  - destruct s; discriminate.
  - exact IH.
Qed.

Lemma append_assoc (a b c : string) :
  ((a ++ b) ++ c = a ++ (b ++ c))%string.
Proof. induction a as [ | x a IH]; simpl; [ reflexivity | now rewrite IH ]. Qed.

Lemma starts_outside_app (chars s t : string) :
  starts_outside chars s = true -> starts_outside chars (s ++ t) = true.
Proof. destruct s; [ discriminate | trivial ]. Qed.

(** The envelope [callback(...);] is taken off a body that does not begin
    with one of the characters of ["callback("] and does not end with [")"]
    or [";"], as a JSON object does not. *)
Theorem raw_data_unwraps :
  forall body : string,
    starts_outside "callback(" body = true ->
    ends_outside ");" body = true ->
    raw_data ("callback(" ++ body ++ ");") = body.
Proof.
  intros body Hs He. unfold raw_data, strip.
  change (lstrip "callback(" ("callback(" ++ body ++ ");"))
    with (lstrip "callback(" (body ++ ");")).
  rewrite (lstrip_outside _ _ (starts_outside_app _ _ ");" Hs)).
  change (body ++ ");")%string
    with (body ++ (String ")" EmptyString ++ String ";" EmptyString))%string.
  rewrite <- append_assoc.
  rewrite (rstrip_outside "callback(") by now rewrite ends_outside_snoc.
  rewrite rstrip_snoc by reflexivity. rewrite rstrip_snoc by reflexivity.
  now apply rstrip_outside.
Qed.

Example raw_data_of_the_example :
  raw_data PriceExample.text = PriceExample.body.
Proof. reflexivity. Qed.

Lemma raw_data_unwraps_witness :
  starts_outside "callback(" PriceExample.body = true /\
  ends_outside ");" PriceExample.body = true /\
  raw_data ("callback(" ++ PriceExample.body ++ ");") = PriceExample.body.
Proof.
  split; [ reflexivity | ]. split; [ reflexivity | ].
  apply raw_data_unwraps; reflexivity.
Defined.

Lemma lstrip_result (chars s : string) :
  lstrip chars s = EmptyString \/
  starts_outside chars (lstrip chars s) = true.
Proof.
  induction s as [ | c s IH]; simpl; [ now left | ].
  destruct (in_chars chars c) eqn:E; [ exact IH | ].
  right. simpl. now rewrite E.
Qed.

Lemma rstrip_result (chars s : string) :
  rstrip chars s = EmptyString \/
  ends_outside chars (rstrip chars s) = true.
Proof.
  induction s as [ | c s IH]; [ now left | ].
  rewrite rstrip_String. destruct (rstrip chars s) as [ | c' r] eqn:E.
  - destruct (in_chars chars c) eqn:Ec; [ now left | ].
    right. simpl. now rewrite Ec.
  - right. destruct IH as [IH | IH]; [ discriminate | exact IH ].
Qed.

Lemma rstrip_keeps_start (chars chars' s : string) :
  starts_outside chars s = true ->
  rstrip chars' s = EmptyString \/
  starts_outside chars (rstrip chars' s) = true.
Proof.
  destruct s as [ | c s]; [ discriminate | ]. intros H.
  rewrite rstrip_String. destruct (rstrip chars' s).
  - destruct (in_chars chars' c); [ now left | now right ].
  - now right.
Qed.

(** What is handed to [json.loads] is empty, or it begins with no
    character of ["callback("] and ends with neither [")"] nor [";"]:
    the stripping works on sets of characters, so a payload that begins or
    ends with such characters loses them. *)
Theorem raw_data_never_keeps_envelope_characters :
  forall text : string,
    raw_data text = EmptyString \/
    (starts_outside "callback(" (raw_data text) = true /\
     ends_outside ");" (raw_data text) = true).
Proof.
  intros text. unfold raw_data, strip.
  destruct (rstrip_result ");"
              (rstrip "callback(" (lstrip "callback(" text))) as [E | He];
    [ now left | right ].
  split; [ | exact He ].
  destruct (lstrip_result "callback(" text) as [E | Hs].
  - rewrite E in He. discriminate.
  - destruct (rstrip_keeps_start _ "callback(" _ Hs) as [E | Hs'].
    + rewrite E in He. discriminate.
    + destruct (rstrip_keeps_start _ ");" _ Hs') as [E | Hs''].
      * rewrite E in He. discriminate.
      * exact Hs''.
Qed.

Example raw_data_eats_a_bare_null : raw_data "null" = "nu".
Proof. reflexivity. Qed.

(** ** The list of instance types of the command line *)

Lemma split_comma_nonempty (s : string) : split_comma s <> [].
Proof.
  destruct s as [ | c s]; simpl; [ discriminate | ].
  destruct (Ascii.eqb c ","); [ discriminate | ].
  destruct (split_comma s); discriminate.
Qed.

Lemma contains_comma_String (c : ascii) (w : string) :
  Ascii.eqb c "," = false ->
  contains "," (String c w) = contains "," w.
Proof.
  intros H. cbn [contains].
  assert (prefix "," (String c w) = false) as ->; [ | reflexivity ].
  change (prefix "," (String c w))
    with (match ascii_dec "," c with
          | left _ => prefix "" w
          | right _ => false
          end).
  destruct (ascii_dec "," c) as [<- | N]; [ discriminate | reflexivity ].
Qed.

Lemma concat_cons_cons (sep x y : string) (l : list string) :
  String.concat sep (x :: y :: l)
  = (x ++ sep ++ String.concat sep (y :: l))%string.
Proof. reflexivity. Qed.

(** [split_comma] is [split(",")]: joining the pieces with commas gives
    the string back, no piece has a comma, and there is at least one
    piece. *)
Theorem split_comma_spec :
  forall s : string,
    String.concat "," (split_comma s) = s /\
    Forall (fun w => contains "," w = false) (split_comma s) /\
    split_comma s <> [].
Proof.
  intros s. split; [ | split; [ | apply split_comma_nonempty ] ].
  - induction s as [ | c s IH]; [ reflexivity | ].
    pose proof (split_comma_nonempty s) as Hne. simpl.
    destruct (Ascii.eqb c ",") eqn:E.
    + apply Ascii.eqb_eq in E. subst c.
      destruct (split_comma s) as [ | w ws]; [ congruence | ].
      rewrite concat_cons_cons, IH. reflexivity.
    + destruct (split_comma s) as [ | w ws]; [ congruence | ].
      destruct ws as [ | w' ws].
      * simpl in *. now rewrite IH.
      * rewrite concat_cons_cons in *. rewrite <- IH. reflexivity.
  - induction s as [ | c s IH]; simpl.
    + now constructor.
    + destruct (Ascii.eqb c ",") eqn:E.
      * now constructor.
      * destruct (split_comma s) as [ | w ws].
        -- constructor; [ | constructor ].
           now rewrite contains_comma_String.
        -- inversion IH as [ | x l Hw Hws ]; subst.
           constructor; [ | assumption ].
           now rewrite contains_comma_String.
Qed.

Lemma contains_empty (s : string) : contains "" s = true.
Proof. now destruct s. Qed.

Lemma split_comma_trailing (s : string) :
  split_comma (s ++ ",") = split_comma s ++ [EmptyString].
Proof.
  induction s as [ | c s IH]; [ reflexivity | ].
  pose proof (split_comma_nonempty s) as Hne.
  change (split_comma (String c s ++ ","))
    with (if Ascii.eqb c ","
          then EmptyString :: split_comma (s ++ ",")
          else match split_comma (s ++ ",") with
               | [] => [String c EmptyString]
               | w :: ws => String c w :: ws
               end).
  rewrite IH. simpl. destruct (Ascii.eqb c ","); [ reflexivity | ].
  destruct (split_comma s) as [ | w ws]; [ congruence | reflexivity ].
Qed.

(** An empty item in the list of substrings is a substring of every name:
    the filter then drops nothing.  [--instance-type] with a trailing or a
    leading comma gives such a list. *)
Theorem empty_item_disables_substring_filter :
  (forall (l : list string) (name : string),
     In EmptyString l -> type_rejected (Some l) name = false) /\
  (forall s name : string,
     type_rejected (instance_types_of (Some (s ++ ",")%string)) name = false) /\
  (forall s name : string,
     type_rejected (instance_types_of (Some ("," ++ s)%string)) name = false).
Proof.
  assert (forall (l : list string) (name : string),
            In EmptyString l -> type_rejected (Some l) name = false) as H.
  { intros l name Hin. rewrite type_rejected_nonempty.
    - apply negb_false_iff. unfold any_in. apply existsb_exists.
      exists EmptyString. split; [ assumption | apply contains_empty ].
    - intros ->. destruct Hin. }
  split; [ exact H | split ]; intros s name.
  - unfold instance_types_of.
    assert (truthy (PStr (s ++ ",")) = true) as -> by now destruct s.
    apply H. rewrite split_comma_trailing. apply in_or_app. right. now left.
  - apply H. now left.
Qed.

Lemma empty_item_disables_substring_filter_witness :
  In EmptyString ["6i"; EmptyString] /\
  type_rejected (Some ["6i"; EmptyString]) "m5.large" = false.
Proof.
  split; [ right; left; reflexivity | ].
  apply (proj1 empty_item_disables_substring_filter).
  right; left; reflexivity.
Defined.

Example trailing_comma_keeps_m5 :
  snd (filtered_instances_of
         (mkArguments 0 PosInf (Fin 0) PosInf (Some 5) "us-east-1" "linux"
            (Some "6i,") None) Example.ok)
  = Ok [Example.m5].
Proof. reflexivity. Qed.

(** ** The price lookup on documents of the published shape *)

Lemma find_app_first {A : Type} (p : A -> bool) (l1 l2 : list A) :
  find p (l1 ++ l2)
  = match find p l1 with Some x => Some x | None => find p l2 end.
Proof.
  induction l1 as [ | x l1 IH]; simpl; [ reflexivity | ].
  now destruct (p x).
Qed.

Lemma next_price_columns (os : string) (cols : list (string * string)) :
  next_price os (map value_column cols)
  = Ok (match find (fun c => String.eqb os (fst c)) cols with
        | Some c => PStr (snd c)
        | None => NA
        end).
Proof.
  induction cols as [ | [n usd] cols IH]; [ reflexivity | ].
  simpl. destruct (String.eqb os n); [ reflexivity | exact IH ].
Qed.

Lemma scan_sizes_entries (instance_type os : string)
    (sizes : list size_data) :
  scan_sizes instance_type os (map size_entry sizes)
  = Ok (match find (fun s => String.eqb instance_type (fst s)) sizes with
        | Some s =>
            Some (match find (fun c => String.eqb os (fst c)) (snd s) with
                  | Some c => PStr (snd c)
                  | None => NA
                  end)
        | None => None
        end).
Proof.
  induction sizes as [ | [n cols] sizes IH]; [ reflexivity | ].
  simpl. destruct (String.eqb instance_type n); [ | exact IH ].
  now rewrite next_price_columns.
Qed.

Lemma scan_instance_types_entries (instance_type os : string)
    (families : list (list size_data)) :
  scan_instance_types instance_type os (map family_entry families)
  = Ok (match find (fun s => String.eqb instance_type (fst s))
                   (List.concat families) with
        | Some s =>
            Some (match find (fun c => String.eqb os (fst c)) (snd s) with
                  | Some c => PStr (snd c)
                  | None => NA
                  end)
        | None => None
        end).
Proof.
  induction families as [ | sizes families IH]; [ reflexivity | ].
  cbn [map scan_instance_types List.concat]. rewrite find_app_first.
  unfold family_entry at 1. simpl py_get. simpl bind.
  rewrite scan_sizes_entries. simpl bind.
  match goal with
  | |- context [find ?p sizes] => destruct (find p sizes)
  end; [ reflexivity | exact IH ].
Qed.

Lemma scan_regions_entries (instance_type region os : string)
    (regions : list region_prices) :
  scan_regions instance_type region os (map region_entry regions)
  = Ok (match find (fun s => String.eqb instance_type (fst s))
                   (sizes_of region regions) with
        | Some s =>
            Some (match find (fun c => String.eqb os (fst c)) (snd s) with
                  | Some c => PStr (snd c)
                  | None => NA
                  end)
        | None => None
        end).
Proof.
  unfold sizes_of.
  induction regions as [ | [n families] regions IH]; [ reflexivity | ].
  cbn [map scan_regions filter fst].
  unfold region_entry at 1. simpl py_get. simpl bind. cbn [py_eq_str].
  destruct (String.eqb region n); [ | exact IH ].
  cbn [flat_map snd]. rewrite find_app_first.
  rewrite scan_instance_types_entries. simpl bind.
  match goal with
  | |- context [find ?p (List.concat families)] =>
      destruct (find p (List.concat families))
  end; [ reflexivity | exact IH ].
Qed.

(** On a price document of the published shape, answered with status 200,
    [fetch_spot_price] does not raise and returns the price of the first
    size with the requested name among the sizes listed under the region,
    taken from its first column named as the requested system: ["N/A"]
    when the size has no such column, [None] when no such size is
    listed. *)
Theorem fetch_spot_price_listed :
  forall (json_loads : string -> result pyval) (resp : price_response)
         (regions : list region_prices) (instance_type region os : string),
    price_status_code resp = 200 ->
    json_loads (raw_data (price_text resp)) = Ok (price_document regions) ->
    fetch_spot_price json_loads (Ok resp) instance_type region os
    = Ok (listed_price instance_type region os regions).
Proof.
  intros json_loads resp regions it region os Hs Hj.
  unfold fetch_spot_price. simpl bind. rewrite Hs, Hj. simpl.
  rewrite scan_regions_entries. simpl bind. unfold listed_price.
  match goal with
  | |- context [find ?p (sizes_of region regions)] =>
      now destruct (find p (sizes_of region regions))
  end.
Qed.

Lemma fetch_spot_price_listed_witness :
  price_status_code PriceExample.ok = 200 /\
  PriceExample.loads (raw_data (price_text PriceExample.ok))
  = Ok (price_document PriceExample.one_size) /\
  listed_price "m6i.large" "us-east-1" "mswin" PriceExample.one_size
  = PStr "0.2500" /\
  fetch_spot_price PriceExample.loads (Ok PriceExample.ok)
    "m6i.large" "us-east-1" "mswin"
  = Ok (listed_price "m6i.large" "us-east-1" "mswin" PriceExample.one_size).
Proof.
  split; [ reflexivity | ]. split; [ reflexivity | ].
  split; [ reflexivity | ].
  apply fetch_spot_price_listed; reflexivity.
Defined.

Example listed_in_the_second_family :
  listed_price "m6i.large" "us-east-1" "linux" PriceExample.regions
  = PStr "0.0625".
Proof. reflexivity. Qed.

Example size_without_the_column :
  listed_price "c6i.xlarge" "us-east-1" "linux" PriceExample.regions = NA.
Proof. reflexivity. Qed.

Example size_of_another_region :
  listed_price "m5.large" "eu-west-1" "linux" PriceExample.regions = PNone.
Proof. reflexivity. Qed.

Example column_without_a_name_raises :
  scan_sizes "m6i.large" "linux"
    [ PDict [("size", PStr "m6i.large");
             ("valueColumns", PList [PDict [("prices", PNone)]])] ]
  = Raise KeyError.
Proof. reflexivity. Qed.

(** ** Failures of the price endpoint in the table *)

(** Whatever goes wrong with the price request of a candidate, the
    candidate keeps its row, with the price ["N/A"], under any ceiling: a
    status other than 200 is silent, while an exception of the request or
    of [json.loads] is reported by the message of the handler. *)
Theorem price_endpoint_failures :
  forall (json_loads : string -> result pyval)
         (py_float : pyval -> result num) (max_usd : option num)
         (instance : candidate) (region os : string),
    (forall resp : price_response,
       price_status_code resp <> 200 ->
       enrich py_float max_usd
         (instance,
          fetch_spot_price json_loads (Ok resp) (instance_type instance)
            region os)
       = ([], [add_row instance PNone]))
    /\ col_usd (add_row instance PNone) = NA
    /\ (forall exc : exn,
          enrich py_float max_usd
            (instance,
             fetch_spot_price json_loads (Raise exc)
               (instance_type instance) region os)
          = ([ErrorFetchingPrice (instance_type instance) exc],
             [add_row instance NA]))
    /\ (forall (resp : price_response) (exc : exn),
          price_status_code resp = 200 ->
          json_loads (raw_data (price_text resp)) = Raise exc ->
          enrich py_float max_usd
            (instance,
             fetch_spot_price json_loads (Ok resp) (instance_type instance)
               region os)
          = ([ErrorFetchingPrice (instance_type instance) exc],
             [add_row instance NA])).
Proof.
  intros json_loads py_float max_usd instance region os.
  split; [ | split; [ reflexivity | split ] ].
  - intros resp Hs. unfold fetch_spot_price. simpl bind.
    apply Z.eqb_neq in Hs. now rewrite Hs.
  - reflexivity.
  - intros resp exc Hs Hj. unfold fetch_spot_price. simpl bind.
    now rewrite Hs, Hj.
Qed.

Lemma price_endpoint_failures_witness :
  price_status_code (mkPriceResponse 403 "denied") <> 200 /\
  enrich Example.float (Some (Fin 0))
    (Example.m6i,
     fetch_spot_price PriceExample.loads
       (Ok (mkPriceResponse 403 "denied")) (instance_type Example.m6i)
       "us-east-1" "linux")
  = ([], [add_row Example.m6i PNone]) /\
  PriceExample.loads (raw_data "denied") = Raise JSONDecodeError /\
  enrich Example.float (Some (Fin 0))
    (Example.m6i,
     fetch_spot_price PriceExample.loads
       (Ok (mkPriceResponse 200 "denied")) (instance_type Example.m6i)
       "us-east-1" "linux")
  = ([ErrorFetchingPrice "m6i.large" JSONDecodeError],
     [add_row Example.m6i NA]).
Proof.
  pose proof (price_endpoint_failures PriceExample.loads Example.float
                (Some (Fin 0)) Example.m6i "us-east-1" "linux")
    as (H1 & _ & _ & H4).
  split; [ discriminate | ]. split; [ apply H1; discriminate | ].
  split; [ reflexivity | ].
  apply (H4 (mkPriceResponse 200 "denied") JSONDecodeError); reflexivity.
Defined.

(** The price of a listed size reaches the table.  When [float] reads the
    number [x] from the listed string, the candidate has no row if [x] is
    above the ceiling, and otherwise the row with its five cells and the
    price [x], or ["N/A"] if [x] is zero.  A size that is not listed, or
    has no column for the system, gets the row with ["N/A"].  No message
    is printed in any of these cases. *)
Theorem listed_price_in_table :
  forall (json_loads : string -> result pyval)
         (py_float : pyval -> result num) (max_usd : option num)
         (resp : price_response) (regions : list region_prices)
         (instance : candidate) (region os : string),
    price_status_code resp = 200 ->
    json_loads (raw_data (price_text resp)) = Ok (price_document regions) ->
    (forall x : num,
       is_price (listed_price (instance_type instance) region os regions)
       = true ->
       py_float (listed_price (instance_type instance) region os regions)
       = Ok x ->
       enrich py_float max_usd
         (instance,
          fetch_spot_price json_loads (Ok resp) (instance_type instance)
            region os)
       = if over_ceiling max_usd x then ([], [])
         else ([], [mkRow (instance_type instance) (cores instance)
                      (ram instance) (discount instance)
                      (frequency_of_interruption instance)
                      (if num_truthy x then PFloat x else PStr "N/A")]))
    /\
    (is_price (listed_price (instance_type instance) region os regions)
     = false ->
     enrich py_float max_usd
       (instance,
        fetch_spot_price json_loads (Ok resp) (instance_type instance)
          region os)
     = ([], [mkRow (instance_type instance) (cores instance)
               (ram instance) (discount instance)
               (frequency_of_interruption instance) (PStr "N/A")])).
Proof.
  intros json_loads py_float max_usd resp regions instance region os Hs Hj.
  rewrite (fetch_spot_price_listed _ _ regions _ _ _ Hs Hj). split.
  - intros x Hp Hf. rewrite (enrich_priced _ _ _ _ x Hp Hf).
    destruct (over_ceiling max_usd x); [ reflexivity | ].
    unfold add_row, py_or. simpl. now destruct (num_truthy x).
  - intros Hp. now apply enrich_unpriced.
Qed.

Lemma listed_price_in_table_witness :
  price_status_code PriceExample.ok = 200 /\
  PriceExample.loads (raw_data (price_text PriceExample.ok))
  = Ok (price_document PriceExample.one_size) /\
  is_price (listed_price "m6i.large" "us-east-1" "linux"
              PriceExample.one_size) = true /\
  Example.float (listed_price "m6i.large" "us-east-1" "linux"
                   PriceExample.one_size) = Ok (Fin (1 # 16)) /\
  enrich Example.float (Some (Fin (1 # 4)))
    (Example.m6i,
     fetch_spot_price PriceExample.loads (Ok PriceExample.ok)
       (instance_type Example.m6i) "us-east-1" "linux")
  = ([], [mkRow "m6i.large" (PInt 2) (PFloat (Fin 8)) (PInt 70) "5-10%"
            (PFloat (Fin (1 # 16)))]).
Proof.
  split; [ reflexivity | ]. split; [ reflexivity | ].
  split; [ reflexivity | ]. split; [ reflexivity | ].
  apply (proj1 (listed_price_in_table PriceExample.loads Example.float
                  (Some (Fin (1 # 4))) PriceExample.ok PriceExample.one_size
                  Example.m6i "us-east-1" "linux" eq_refl eq_refl)
           (Fin (1 # 16)) eq_refl eq_refl).
Defined.

(** ** The list the filter returns *)

Lemma subsequence_In {A : Type} (l1 l2 : list A) (x : A) :
  subsequence l1 l2 -> In x l1 -> In x l2.
Proof.
  induction 1 as [ | y l1 l2 _ IH | y l1 l2 _ IH ]; simpl; intros H.
  - destruct H.
  - right. now apply IH.
  - destruct H as [-> | H]; [ now left | right; now apply IH ].
Qed.

Lemma subsequence_NoDup {A : Type} (l1 l2 : list A) :
  subsequence l1 l2 -> NoDup l2 -> NoDup l1.
Proof.
  induction 1 as [ | y l1 l2 Hs IH | y l1 l2 Hs IH ]; intros Hnd.
  - constructor.
  - inversion Hnd; subst. now apply IH.
  - inversion Hnd as [ | z l Hy Hnd' ]; subst. constructor.
    + intros Hin. apply Hy. now apply (subsequence_In l1 l2).
    + now apply IH.
Qed.

Section ListFacts.

Variables min_cores max_cores min_ram max_ram : num.
Variable max_interruption : option num.
Variable region : string.
Variable instance_types : option (list string).
Variable spot_advisor : pyval.

Let body := loop_body min_cores max_cores min_ram max_ram max_interruption
              region instance_types spot_advisor.
Let loop := filter_loop min_cores max_cores min_ram max_ram max_interruption
              region instance_types spot_advisor.

Lemma loop_body_instance_type (it_type : string) (details : pyval)
    (c : candidate) :
  body it_type details = Ok (Some c) -> instance_type c = it_type.
Proof.
  intros H. apply loop_body_Some in H.
  destruct H as (_ & cs & rg & rd & ld & _ & _ & _ & _ & _ & _ & _ & He).
  apply emit_Some in He. now destruct He as (e & ds & rv & _ & _ & _ & -> & _).
Qed.

Lemma filter_loop_subsequence (items : list (string * pyval)) :
  forall l, loop items = Ok l ->
  subsequence (map instance_type l) (map fst items).
Proof.
  induction items as [ | [it_type details] rest IH]; intros l H.
  - injection H as <-. constructor.
  - unfold loop in H. simpl in H. bind_inv H. bind_inv H. injection H as <-.
    destruct x as [c | ]; simpl.
    + rewrite (loop_body_instance_type _ _ _ E).
      apply subsequence_keep. now apply IH.
    + apply subsequence_skip. now apply IH.
Qed.

Lemma filter_loop_complete (items : list (string * pyval)) :
  forall l it_type details c,
    loop items = Ok l -> In (it_type, details) items ->
    body it_type details = Ok (Some c) -> In c l.
Proof.
  induction items as [ | [it' details'] rest IH];
    intros l it_type details c H Hin Hb; [ destruct Hin | ].
  unfold loop in H. simpl in H. bind_inv H. bind_inv H. injection H as <-.
  destruct Hin as [Heq | Hin].
  - injection Heq as -> ->. unfold body in Hb. rewrite Hb in E.
    injection E as <-. now left.
  - assert (In c x0) as Hc by now apply (IH x0 it_type details).
    destruct x; [ now right | assumption ].
Qed.

Lemma filter_loop_app (l1 l2 : list (string * pyval)) :
  loop (l1 ++ l2)
  = (a <- loop l1 ;; b <- loop l2 ;; Ok (a ++ b)).
Proof.
  unfold loop. induction l1 as [ | [it_type details] l1 IH]; simpl.
  - now destruct (filter_loop _ _ _ _ _ _ _ _ l2).
  - destruct (loop_body _ _ _ _ _ _ _ _ it_type details) as [o | e]; simpl;
      [ | reflexivity ].
    rewrite IH.
    destruct (filter_loop _ _ _ _ _ _ _ _ l1) as [a | e]; simpl;
      [ | reflexivity ].
    destruct (filter_loop _ _ _ _ _ _ _ _ l2) as [b | e]; simpl;
      [ | reflexivity ].
    now destruct o.
Qed.

End ListFacts.

(** The candidates come in the order of the document: their instance
    types are the keys of ["instance_types"] with some left out, so no
    instance type is returned twice. *)
Theorem filter_keeps_document_order :
  forall (min_cores max_cores min_ram max_ram : num)
         (max_interruption : option num) (region : string)
         (max_usd : option num) (instance_types : option (list string))
         (resp : response) (l : list candidate),
    status_code resp = 200 ->
    snd (get_filtered_instances min_cores max_cores min_ram max_ram
           max_interruption region max_usd instance_types resp) = Ok l ->
    exists data instance_types_data items,
      json_loads_text resp = Ok data /\
      py_get data "instance_types" (PDict []) = Ok instance_types_data /\
      py_items instance_types_data = Ok items /\
      subsequence (map instance_type l) (map fst items) /\
      (NoDup (map fst items) -> NoDup (map instance_type l)).
Proof.
  intros a b c d mi region mu types resp l Hs H.
  unfold get_filtered_instances in H. rewrite Hs in H. simpl in H.
  bind_inv H. bind_inv H. bind_inv H. bind_inv H.
  apply filter_loop_subsequence in H.
  exists x, x0, x2. repeat split; trivial.
  now apply subsequence_NoDup.
Qed.

Lemma filter_keeps_document_order_witness :
  status_code Example.ok = 200 /\
  snd (get_filtered_instances (of_Z 1) (of_Z 4) (Fin 4) (Fin 16) None
         "us-east-1" None (Some ["6i"]) Example.ok)
  = Ok [Example.m6i; Example.c6i] /\
  exists data instance_types_data items,
    json_loads_text Example.ok = Ok data /\
    py_get data "instance_types" (PDict []) = Ok instance_types_data /\
    py_items instance_types_data = Ok items /\
    subsequence (map instance_type [Example.m6i; Example.c6i])
      (map fst items) /\
    (NoDup (map fst items) ->
     NoDup (map instance_type [Example.m6i; Example.c6i])).
Proof.
  split; [ reflexivity | ]. split; [ reflexivity | ].
  apply (filter_keeps_document_order (of_Z 1) (of_Z 4) (Fin 4) (Fin 16)
           None "us-east-1" None (Some ["6i"]) Example.ok); reflexivity.
Defined.

(** ** The interruption ceiling as a filter on labels *)

Lemma r_max_of_label (r_value : pyval) :
  r_max_of r_value = max_of_label (freq_label_of r_value).
Proof.
  unfold r_max_of, freq_label_of, next_range, ranges. simpl.
  repeat (match goal with
          | |- context [py_eq_int ?z r_value] =>
              destruct (py_eq_int z r_value)
          end; simpl; try reflexivity).
Qed.

Lemma emit_ceiling (m : num) (it_type : string)
    (cores ram_gb linux_data : pyval) :
  emit (Some m) it_type cores ram_gb linux_data
  = (o <- emit None it_type cores ram_gb linux_data ;;
     Ok (match o with
         | Some c => if within_ceiling m c then Some c else None
         | None => None
         end)).
Proof.
  unfold emit.
  destruct (py_getitem linux_data it_type) as [e | x]; simpl; trivial.
  destruct (py_get e "s" PNone) as [ds | x]; simpl; trivial.
  destruct (py_get e "r" PNone) as [rv | x]; simpl; trivial.
  unfold within_ceiling. simpl.
  rewrite r_max_of_label. now destruct (num_ltb m _).
Qed.

Lemma loop_body_ceiling (min_cores max_cores min_ram max_ram m : num)
    (region : string) (instance_types : option (list string))
    (sa : pyval) (it_type : string) (details : pyval) :
  loop_body min_cores max_cores min_ram max_ram (Some m) region
    instance_types sa it_type details
  = (o <- loop_body min_cores max_cores min_ram max_ram None region
            instance_types sa it_type details ;;
     Ok (match o with
         | Some c => if within_ceiling m c then Some c else None
         | None => None
         end)).
Proof.
  unfold loop_body.
  destruct (type_rejected instance_types it_type); [ reflexivity | ].
  destruct (py_get details "cores" PNone) as [cs | x]; simpl; trivial.
  destruct (py_get details "ram_gb" PNone) as [rg | x]; simpl; trivial.
  destruct (in_bounds _ _ _ _ cs rg) as [[ | ] | x]; simpl; trivial.
  destruct (py_in region sa) as [[ | ] | x]; simpl; trivial.
  destruct (py_getitem sa region) as [rd | x]; simpl; trivial.
  destruct (py_get rd "Linux" (PDict [])) as [ld | x]; simpl; trivial.
  destruct (py_in it_type ld) as [[ | ] | x]; simpl; trivial.
  apply emit_ceiling.
Qed.

Lemma filter_loop_ceiling (min_cores max_cores min_ram max_ram m : num)
    (region : string) (instance_types : option (list string))
    (sa : pyval) (items : list (string * pyval)) :
  filter_loop min_cores max_cores min_ram max_ram (Some m) region
    instance_types sa items
  = (l <- filter_loop min_cores max_cores min_ram max_ram None region
            instance_types sa items ;;
     Ok (filter (within_ceiling m) l)).
Proof.
  induction items as [ | [it_type details] rest IH]; [ reflexivity | ].
  simpl. rewrite loop_body_ceiling, IH.
  destruct (loop_body _ _ _ _ None _ _ _ it_type details) as [o | x]; simpl;
    trivial.
  destruct (filter_loop _ _ _ _ None _ _ _ rest) as [l | x]; simpl; trivial.
  destruct o as [c | ]; simpl; trivial.
  now destruct (within_ceiling m c).
Qed.

(** Running the filter with an interruption ceiling is running it without
    one and then dropping the candidates whose label stands for an upper
    bound above the ceiling (100 for ["Unknown"]); it prints the same and
    raises in the same cases. *)
Theorem ceiling_is_a_filter_on_labels :
  forall (min_cores max_cores min_ram max_ram m : num) (region : string)
         (max_usd : option num) (instance_types : option (list string))
         (resp : response),
    get_filtered_instances min_cores max_cores min_ram max_ram (Some m)
      region max_usd instance_types resp
    = (fst (get_filtered_instances min_cores max_cores min_ram max_ram None
              region max_usd instance_types resp),
       l <- snd (get_filtered_instances min_cores max_cores min_ram max_ram
                   None region max_usd instance_types resp) ;;
       Ok (filter (within_ceiling m) l)).
Proof.
  intros a b c d m region mu types resp. unfold get_filtered_instances.
  destruct (status_code resp =? 200); [ | reflexivity ]. simpl. f_equal.
  destruct (json_loads_text resp) as [data | x]; simpl; trivial.
  destruct (py_get data "instance_types" (PDict [])) as [itd | x]; simpl;
    trivial.
  destruct (py_get data "spot_advisor" (PDict [])) as [sa | x]; simpl;
    trivial.
  destruct (py_items itd) as [items | x]; simpl; trivial.
  apply filter_loop_ceiling.
Qed.

Example ceiling_16_after_the_fact :
  snd (get_filtered_instances (of_Z 0) PosInf (Fin 0) PosInf None
         "us-east-1" None None Example.ok)
  = Ok [ Example.m6i; Example.m5; Example.c6i; Example.x9;
         mkCandidate "r6i.4xlarge" (PInt 16) (PFloat (Fin 128)) (PInt 55)
           ">20%" ] /\
  snd (get_filtered_instances (of_Z 0) PosInf (Fin 0) PosInf
         (Some (of_Z 16)) "us-east-1" None None Example.ok)
  = Ok [ Example.m6i; Example.m5; Example.c6i ].
Proof. split; reflexivity. Qed.

(** ** Entries the filter must return, and entries that stop it *)

Lemma get_filtered_complete (min_cores max_cores min_ram max_ram : num)
    (max_interruption : option num) (region : string)
    (max_usd : option num) (instance_types : option (list string))
    (status : Z) (items : list (string * pyval)) (sa : pyval)
    (l : list candidate) (it_type : string) (details : pyval)
    (c : candidate) :
  snd (get_filtered_instances min_cores max_cores min_ram max_ram
         max_interruption region max_usd instance_types
         (mkResponse status (Ok (advisor_document (PDict items) sa))))
  = Ok l ->
  status = 200 ->
  In (it_type, details) items ->
  loop_body min_cores max_cores min_ram max_ram max_interruption region
    instance_types sa it_type details = Ok (Some c) ->
  In c l.
Proof.
  intros H -> Hin Hb. unfold get_filtered_instances in H. simpl in H.
  eapply filter_loop_complete; eassumption.
Qed.

Lemma in_bounds_intro (a b c d x y : num) (cores ram_gb : pyval) :
  to_num cores = Ok x -> to_num ram_gb = Ok y ->
  num_leb a x = true -> num_leb x b = true ->
  num_leb c y = true -> num_leb y d = true ->
  in_bounds a b c d cores ram_gb = Ok true.
Proof.
  intros Hx Hy H1 H2 H3 H4. unfold in_bounds, py_le_l, py_le_r.
  rewrite Hx, Hy. simpl. rewrite H1, H2, H3. simpl. now rewrite H4.
Qed.

(** Completeness: when the filter returns, its list has every entry of
    the document that passes the substring test, has numbers of cores and
    memory within the bounds, is listed in the Linux sub-map of the region
    with a record, and whose index resolves to an upper bound that the
    ceiling, if any, admits.  The candidate carries the entry's values, the
    discount ["s"] and the label of the index ["r"]. *)
Theorem filter_returns_every_match :
  forall (min_cores max_cores min_ram max_ram : num)
         (max_interruption : option num) (region : string)
         (max_usd : option num) (instance_types : option (list string))
         (items sa rd ld d e : list (string * pyval)) (it_type : string)
         (vc vr : pyval) (x y : num) (l : list candidate),
    In (it_type, PDict d) items ->
    type_rejected instance_types it_type = false ->
    dict_lookup "cores" d = Some vc -> to_num vc = Ok x ->
    dict_lookup "ram_gb" d = Some vr -> to_num vr = Ok y ->
    num_leb min_cores x = true -> num_leb x max_cores = true ->
    num_leb min_ram y = true -> num_leb y max_ram = true ->
    dict_lookup region sa = Some (PDict rd) ->
    dict_lookup "Linux" rd = Some (PDict ld) ->
    dict_lookup it_type ld = Some (PDict e) ->
    (forall m, max_interruption = Some m ->
       num_ltb m (of_Z (r_max_of (or_None (dict_lookup "r" e)))) = false) ->
    snd (get_filtered_instances min_cores max_cores min_ram max_ram
           max_interruption region max_usd instance_types
           (mkResponse 200
              (Ok (advisor_document (PDict items) (PDict sa))))) = Ok l ->
    In (mkCandidate it_type vc vr (or_None (dict_lookup "s" e))
          (freq_label_of (or_None (dict_lookup "r" e)))) l.
Proof.
  intros a b c d' mi region mu types items sa rd ld d e it vc vr x y l
         Hin Hrej Hc Hx Hr Hy H1 H2 H3 H4 Hsa Hrd Hld Hm H.
  apply (get_filtered_complete _ _ _ _ _ _ _ _ _ _ _ _ it (PDict d) _ H
           eq_refl Hin).
  unfold loop_body. rewrite Hrej. simpl. rewrite Hc, Hr. simpl.
  rewrite (in_bounds_intro _ _ _ _ x y vc vr Hx Hy H1 H2 H3 H4). simpl.
  rewrite Hsa. simpl. rewrite Hrd. simpl. rewrite Hld. simpl.
  unfold emit. simpl. rewrite Hld. simpl.
  unfold or_None in *.
  destruct mi as [m | ]; [ | reflexivity ].
  now rewrite (Hm m eq_refl).
Qed.

Lemma filter_returns_every_match_witness :
  In ("a1.large", PDict Tiny.details) Tiny.items /\
  type_rejected (Some ["a1"; "t3"]) "a1.large" = false /\
  snd (get_filtered_instances (of_Z 2) (of_Z 2) (Fin 4) PosInf
         (Some (of_Z 100)) "us-east-1" None (Some ["a1"; "t3"])
         (mkResponse 200
            (Ok (advisor_document (PDict Tiny.items)
                   (PDict Tiny.spot_advisor)))))
  = Ok [Tiny.a1] /\
  In (mkCandidate "a1.large" (PInt 2) (PInt 4)
        (or_None (dict_lookup "s" Tiny.advice))
        (freq_label_of (or_None (dict_lookup "r" Tiny.advice))))
     [Tiny.a1].
Proof.
  assert (In ("a1.large", PDict Tiny.details) Tiny.items) as Hin.
  { right; left; reflexivity. }
  split; [ exact Hin | ]. split; [ reflexivity | ].
  split; [ reflexivity | ].
  apply (filter_returns_every_match (of_Z 2) (of_Z 2) (Fin 4) PosInf
           (Some (of_Z 100)) "us-east-1" None (Some ["a1"; "t3"])
           Tiny.items Tiny.spot_advisor Tiny.region_data Tiny.linux
           Tiny.details Tiny.advice "a1.large" (PInt 2) (PInt 4)
           (of_Z 2) (of_Z 4) [Tiny.a1] Hin);
    try reflexivity.
  intros m Hm. injection Hm as <-. reflexivity.
Defined.

Lemma loop_body_accepts (min_cores max_cores min_ram max_ram : num)
    (max_interruption : option num) (region : string)
    (instance_types : option (list string))
    (sa rd ld d e : list (string * pyval)) (it_type : string)
    (vc vr : pyval) (x y : num) :
  type_rejected instance_types it_type = false ->
  dict_lookup "cores" d = Some vc -> to_num vc = Ok x ->
  dict_lookup "ram_gb" d = Some vr -> to_num vr = Ok y ->
  num_leb min_cores x = true -> num_leb x max_cores = true ->
  num_leb min_ram y = true -> num_leb y max_ram = true ->
  dict_lookup region sa = Some (PDict rd) ->
  dict_lookup "Linux" rd = Some (PDict ld) ->
  dict_lookup it_type ld = Some (PDict e) ->
  (forall m, max_interruption = Some m ->
     num_ltb m (of_Z (r_max_of (or_None (dict_lookup "r" e)))) = false) ->
  loop_body min_cores max_cores min_ram max_ram max_interruption region
    instance_types (PDict sa) it_type (PDict d)
  = Ok (Some (mkCandidate it_type vc vr (or_None (dict_lookup "s" e))
                (freq_label_of (or_None (dict_lookup "r" e))))).
Proof.
  intros Hrej Hc Hx Hr Hy H1 H2 H3 H4 Hsa Hrd Hld Hm.
  unfold loop_body. rewrite Hrej. simpl. rewrite Hc, Hr. simpl.
  rewrite (in_bounds_intro _ _ _ _ x y vc vr Hx Hy H1 H2 H3 H4). simpl.
  rewrite Hsa. simpl. rewrite Hrd. simpl. rewrite Hld. simpl.
  unfold emit. simpl. rewrite Hld. simpl.
  unfold or_None in *.
  destruct max_interruption as [m | ]; [ | reflexivity ].
  now rewrite (Hm m eq_refl).
Qed.

(** C7: with a non-empty list of substrings, an instance type passes the
    substring test exactly when some entry of the list occurs in its
    name.  The filter then returns only candidates whose instance type
    contains an entry of the list, and it returns every entry of the
    document whose name contains one and that meets the other
    constraints; without a list it returns every entry that meets the
    other constraints, whatever its name.  With ["6i"], of two entries
    that differ in their name only, ["m6i.large"] is returned and
    ["m5.large"] is not; without a list both are. *)
Theorem substring_filter :
  (forall (l : list string) (name : string), l <> [] ->
     (type_rejected (Some l) name = false <->
      exists s pre suf, In s l /\ name = (pre ++ s ++ suf)%string))
  /\
  (forall (min_cores max_cores min_ram max_ram : num)
          (max_interruption : option num) (region : string)
          (max_usd : option num) (l : list string) (resp : response)
          (L : list candidate) (c : candidate),
     l <> [] ->
     snd (get_filtered_instances min_cores max_cores min_ram max_ram
            max_interruption region max_usd (Some l) resp) = Ok L ->
     In c L ->
     exists s pre suf,
       In s l /\ instance_type c = (pre ++ s ++ suf)%string)
  /\
  (forall (min_cores max_cores min_ram max_ram : num)
          (max_interruption : option num) (region : string)
          (max_usd : option num) (instance_types : option (list string))
          (items sa rd ld d e : list (string * pyval)) (it_type : string)
          (vc vr : pyval) (x y : num) (L : list candidate),
     instance_types = None \/
     (exists l s pre suf,
        instance_types = Some l /\ In s l /\
        it_type = (pre ++ s ++ suf)%string) ->
     In (it_type, PDict d) items ->
     dict_lookup "cores" d = Some vc -> to_num vc = Ok x ->
     dict_lookup "ram_gb" d = Some vr -> to_num vr = Ok y ->
     num_leb min_cores x = true -> num_leb x max_cores = true ->
     num_leb min_ram y = true -> num_leb y max_ram = true ->
     dict_lookup region sa = Some (PDict rd) ->
     dict_lookup "Linux" rd = Some (PDict ld) ->
     dict_lookup it_type ld = Some (PDict e) ->
     (forall m, max_interruption = Some m ->
        num_ltb m (of_Z (r_max_of (or_None (dict_lookup "r" e)))) = false) ->
     snd (get_filtered_instances min_cores max_cores min_ram max_ram
            max_interruption region max_usd instance_types
            (mkResponse 200
               (Ok (advisor_document (PDict items) (PDict sa))))) = Ok L ->
     In (mkCandidate it_type vc vr (or_None (dict_lookup "s" e))
           (freq_label_of (or_None (dict_lookup "r" e)))) L)
  /\
  get_filtered_instances (of_Z 0) PosInf (Fin 0) PosInf None "us-east-1"
    None (Some ["6i"])
    (mkResponse 200
       (Ok (advisor_document
              (PDict [ ("m6i.large", Example.spec 2 (PFloat (Fin 8)));
                       ("m5.large", Example.spec 2 (PFloat (Fin 8))) ])
              (PDict [ ("us-east-1",
                        PDict [ ("Linux",
                                 PDict [ ("m6i.large",
                                          Example.advice 70 (PInt 1));
                                         ("m5.large",
                                          Example.advice 70 (PInt 1)) ]) ])
                     ]))))
  = ([], Ok [ mkCandidate "m6i.large" (PInt 2) (PFloat (Fin 8)) (PInt 70)
                "5-10%" ])
  /\
  get_filtered_instances (of_Z 0) PosInf (Fin 0) PosInf None "us-east-1"
    None None
    (mkResponse 200
       (Ok (advisor_document
              (PDict [ ("m6i.large", Example.spec 2 (PFloat (Fin 8)));
                       ("m5.large", Example.spec 2 (PFloat (Fin 8))) ])
              (PDict [ ("us-east-1",
                        PDict [ ("Linux",
                                 PDict [ ("m6i.large",
                                          Example.advice 70 (PInt 1));
                                         ("m5.large",
                                          Example.advice 70 (PInt 1)) ]) ])
                     ]))))
  = ([], Ok [ mkCandidate "m6i.large" (PInt 2) (PFloat (Fin 8)) (PInt 70)
                "5-10%";
              mkCandidate "m5.large" (PInt 2) (PFloat (Fin 8)) (PInt 70)
                "5-10%" ])
  /\
  (forall (min_cores max_cores min_ram max_ram : num)
          (max_interruption : option num) (region : string)
          (max_usd : option num) (l : list string) (status : Z)
          (items : list (string * pyval)) (sa : pyval),
     l <> [] ->
     get_filtered_instances min_cores max_cores min_ram max_ram
       max_interruption region max_usd (Some l)
       (mkResponse status (Ok (advisor_document (PDict items) sa)))
     = get_filtered_instances min_cores max_cores min_ram max_ram
         max_interruption region max_usd None
         (mkResponse status
            (Ok (advisor_document
                   (PDict (filter (fun e => any_in l (fst e)) items)) sa)))).
Proof.
  assert (forall (l : list string) (name : string), l <> [] ->
            (type_rejected (Some l) name = false <->
             exists s pre suf, In s l /\ name = (pre ++ s ++ suf)%string))
    as Htest.
  { intros l name Hl.
    rewrite type_rejected_nonempty, negb_false_iff by assumption.
    apply any_in_spec. }
  split; [ exact Htest | ].
  split; [ | split; [ | split; [ reflexivity | split; [ reflexivity | ] ] ] ].
  - intros a b c d mi region mu l resp L cand Hl H Hc.
    destruct (get_filtered_In _ _ _ _ _ _ _ _ _ _ _ H Hc)
      as (_ & data & itd & sa & items & it & details
          & _ & _ & _ & _ & _ & Hb).
    pose proof (loop_body_instance_type _ _ _ _ _ _ _ _ _ _ _ Hb) as Hit.
    apply loop_body_Some in Hb. destruct Hb as (Hrej & _).
    rewrite Hit. now apply Htest.
  - intros a b c d' mi region mu types items sa rd ld d e it vc vr x y L
           Htypes Hin Hc Hx Hr Hy H1 H2 H3 H4 Hsa Hrd Hld Hm H.
    assert (type_rejected types it = false) as Hrej.
    { destruct Htypes as [-> | (l & s & pre & suf & -> & Hs & Hn)];
        [ reflexivity | ].
      apply Htest; [ intros ->; destruct Hs | ]. now exists s, pre, suf. }
    apply (get_filtered_complete _ _ _ _ _ _ _ _ _ _ _ _ it (PDict d) _ H
             eq_refl Hin).
    now apply (loop_body_accepts _ _ _ _ _ _ _ sa rd ld d e it vc vr x y).
  - intros a b c d mi region mu l status items sa Hl.
    unfold get_filtered_instances, advisor_document. simpl.
    destruct (status =? 200); [ | reflexivity ]. f_equal.
    now apply filter_loop_substrings.
Qed.

Lemma substring_filter_witness :
  (exists l s pre suf,
     Some ["a1"; "t3"] = Some l /\ In s l /\
     "a1.large" = (pre ++ s ++ suf)%string) /\
  In ("a1.large", PDict Tiny.details) Tiny.items /\
  snd (get_filtered_instances (of_Z 2) (of_Z 2) (Fin 4) PosInf
         (Some (of_Z 100)) "us-east-1" None (Some ["a1"; "t3"])
         (mkResponse 200
            (Ok (advisor_document (PDict Tiny.items)
                   (PDict Tiny.spot_advisor)))))
  = Ok [Tiny.a1] /\
  In (mkCandidate "a1.large" (PInt 2) (PInt 4)
        (or_None (dict_lookup "s" Tiny.advice))
        (freq_label_of (or_None (dict_lookup "r" Tiny.advice))))
     [Tiny.a1] /\
  ["6i"] <> [] /\
  (type_rejected (Some ["6i"]) "m5.large" = false <->
   exists s pre suf, In s ["6i"] /\ "m5.large" = (pre ++ s ++ suf)%string).
Proof.
  assert (exists l s pre suf,
            Some ["a1"; "t3"] = Some l /\ In s l /\
            "a1.large" = (pre ++ s ++ suf)%string) as Hsub.
  { exists ["a1"; "t3"], "a1", "", ".large".
    split; [ reflexivity | ]. split; [ left; reflexivity | reflexivity ]. }
  assert (In ("a1.large", PDict Tiny.details) Tiny.items) as Hin.
  { right; left; reflexivity. }
  split; [ exact Hsub | ]. split; [ exact Hin | ].
  split; [ reflexivity | ]. split.
  - apply (proj1 (proj2 (proj2 substring_filter)) (of_Z 2) (of_Z 2) (Fin 4)
             PosInf (Some (of_Z 100)) "us-east-1" None (Some ["a1"; "t3"])
             Tiny.items Tiny.spot_advisor Tiny.region_data Tiny.linux
             Tiny.details Tiny.advice "a1.large" (PInt 2) (PInt 4)
             (of_Z 2) (of_Z 4) [Tiny.a1] (or_intror Hsub) Hin);
      try reflexivity.
    intros m Hm. injection Hm as <-. reflexivity.
  - split; [ discriminate | ].
    apply (proj1 substring_filter ["6i"] "m5.large"). discriminate.
Defined.

(** One entry that passes the substring test and has no number under
    ["cores"] (no such key, [null], a string) makes the whole call raise
    [TypeError]: the candidates collected from the entries before it are
    lost.  An entry that the substring test rejects is not looked at, so
    it can hold anything. *)
Theorem malformed_entry_aborts_filter :
  forall (min_cores max_cores min_ram max_ram : num)
         (max_interruption : option num) (region : string)
         (max_usd : option num) (instance_types : option (list string))
         (before after : list (string * pyval)) (sa : pyval)
         (it_type : string),
    (forall (d : list (string * pyval)) (l0 : list candidate),
       snd (get_filtered_instances min_cores max_cores min_ram max_ram
              max_interruption region max_usd instance_types
              (mkResponse 200 (Ok (advisor_document (PDict before) sa))))
       = Ok l0 ->
       type_rejected instance_types it_type = false ->
       to_num (or_None (dict_lookup "cores" d)) = Raise TypeError ->
       snd (get_filtered_instances min_cores max_cores min_ram max_ram
              max_interruption region max_usd instance_types
              (mkResponse 200
                 (Ok (advisor_document
                        (PDict (before ++ (it_type, PDict d) :: after))
                        sa))))
       = Raise TypeError)
    /\
    (forall details : pyval,
       type_rejected instance_types it_type = true ->
       snd (get_filtered_instances min_cores max_cores min_ram max_ram
              max_interruption region max_usd instance_types
              (mkResponse 200
                 (Ok (advisor_document
                        (PDict (before ++ (it_type, details) :: after))
                        sa))))
       = snd (get_filtered_instances min_cores max_cores min_ram max_ram
                max_interruption region max_usd instance_types
                (mkResponse 200
                   (Ok (advisor_document (PDict (before ++ after)) sa))))).
Proof.
  intros a b c d mi region mu types before after sa it. split.
  - intros d0 l0 H Hrej Hc.
    unfold get_filtered_instances in *. simpl in *.
    rewrite filter_loop_app, H. simpl.
    unfold loop_body. rewrite Hrej. simpl.
    unfold in_bounds, py_le_l. unfold or_None in Hc. now rewrite Hc.
  - intros details Hrej.
    unfold get_filtered_instances. simpl. rewrite !filter_loop_app.
    destruct (filter_loop _ _ _ _ _ _ _ _ before) as [l0 | x]; simpl;
      [ | reflexivity ].
    unfold loop_body at 1. rewrite Hrej. simpl.
    now destruct (filter_loop _ _ _ _ _ _ _ _ after).
Qed.

Lemma malformed_entry_aborts_filter_witness :
  snd (get_filtered_instances (of_Z 0) PosInf (Fin 0) PosInf None
         "us-east-1" None None
         (mkResponse 200
            (Ok (advisor_document (PDict Tiny.items)
                   (PDict Tiny.spot_advisor)))))
  = Ok [Tiny.a1] /\
  type_rejected None "z1.odd" = false /\
  to_num (or_None (dict_lookup "cores" [("ram_gb", PInt 4)]))
  = Raise TypeError /\
  snd (get_filtered_instances (of_Z 0) PosInf (Fin 0) PosInf None
         "us-east-1" None None
         (mkResponse 200
            (Ok (advisor_document
                   (PDict (Tiny.items
                           ++ ("z1.odd", PDict [("ram_gb", PInt 4)]) :: []))
                   (PDict Tiny.spot_advisor)))))
  = Raise TypeError.
Proof.
  split; [ reflexivity | ]. split; [ reflexivity | ].
  split; [ reflexivity | ].
  apply (proj1 (malformed_entry_aborts_filter (of_Z 0) PosInf (Fin 0) PosInf
                  None "us-east-1" None None Tiny.items []
                  (PDict Tiny.spot_advisor) "z1.odd")
           [("ram_gb", PInt 4)] [Tiny.a1]);
    reflexivity.
Defined.

Example rejected_entry_may_be_malformed :
  snd (get_filtered_instances (of_Z 0) PosInf (Fin 0) PosInf None
         "us-east-1" None (Some ["6i"])
         (mkResponse 200
            (Ok (advisor_document
                   (PDict [ ("z1.odd", PNone);
                            ("m6i.large",
                             Example.spec 2 (PFloat (Fin 8))) ])
                   Example.spot_advisor))))
  = Ok [Example.m6i].
Proof. reflexivity. Qed.

Example out_of_range_cores_hide_a_missing_ram :
  snd (get_filtered_instances (of_Z 4) PosInf (Fin 0) PosInf None
         "us-east-1" None None
         (mkResponse 200
            (Ok (advisor_document
                   (PDict [ ("m6i.large", PDict [("cores", PInt 2)]) ])
                   Example.spot_advisor))))
  = Ok [].
Proof. reflexivity. Qed.

(** ** Wider bounds *)

Lemma num_leb_trans (a b c : num) :
  num_leb a b = true -> num_leb b c = true -> num_leb a c = true.
Proof.
  destruct a as [ | | p | ], b as [ | | q | ], c as [ | | r | ]; simpl;
    try congruence.
  rewrite !Qle_bool_iff. apply Qle_trans.
Qed.

Lemma loop_body_widen (a b c d a' b' c' d' : num)
    (max_interruption : option num) (region : string)
    (instance_types : option (list string)) (sa : pyval)
    (it_type : string) (details : pyval) (cand : candidate) :
  num_leb a' a = true -> num_leb b b' = true ->
  num_leb c' c = true -> num_leb d d' = true ->
  loop_body a b c d max_interruption region instance_types sa it_type
    details = Ok (Some cand) ->
  loop_body a' b' c' d' max_interruption region instance_types sa it_type
    details = Ok (Some cand).
Proof.
  intros Ha Hb Hc Hd H. apply loop_body_Some in H.
  destruct H as (Hrej & cs & rg & rd & ld & Hcs & Hrg & Hin & Hr & Hrd
                 & Hld & Hit & He).
  apply in_bounds_true in Hin.
  destruct Hin as (x & y & Hx & Hy & H1 & H2 & H3 & H4).
  unfold loop_body. rewrite Hrej, Hcs. simpl. rewrite Hrg. simpl.
  rewrite (in_bounds_intro a' b' c' d' x y cs rg Hx Hy
             (num_leb_trans _ _ _ Ha H1) (num_leb_trans _ _ _ H2 Hb)
             (num_leb_trans _ _ _ Hc H3) (num_leb_trans _ _ _ H4 Hd)).
  simpl. rewrite Hr. simpl. rewrite Hrd. simpl. rewrite Hld. simpl.
  rewrite Hit. simpl. exact He.
Qed.

(** Widening the bounds on cores and memory loses no candidate: when both
    calls return, every candidate of the call with the narrower bounds is
    a candidate of the call with the wider ones. *)
Theorem wider_bounds_keep_candidates :
  forall (a b c d a' b' c' d' : num) (max_interruption : option num)
         (region : string) (max_usd : option num)
         (instance_types : option (list string)) (resp : response)
         (l l' : list candidate),
    num_leb a' a = true -> num_leb b b' = true ->
    num_leb c' c = true -> num_leb d d' = true ->
    snd (get_filtered_instances a b c d max_interruption region max_usd
           instance_types resp) = Ok l ->
    snd (get_filtered_instances a' b' c' d' max_interruption region max_usd
           instance_types resp) = Ok l' ->
    forall cand, In cand l -> In cand l'.
Proof.
  intros a b c d a' b' c' d' mi region mu types resp l l'
         Ha Hb Hc Hd H H' cand Hin.
  destruct (get_filtered_In _ _ _ _ _ _ _ _ _ _ _ H Hin)
    as (Hs & data & itd & sa & items & it & details
        & Hj & Hi & Hsa & Hit & Hitem & Hbody).
  unfold get_filtered_instances in H'. rewrite Hs in H'. simpl in H'.
  rewrite Hj in H'. simpl in H'. rewrite Hi in H'. simpl in H'.
  rewrite Hsa in H'. simpl in H'. rewrite Hit in H'. simpl in H'.
  eapply filter_loop_complete; [ exact H' | exact Hitem | ].
  now apply (loop_body_widen a b c d).
Qed.

Lemma wider_bounds_keep_candidates_witness :
  num_leb (of_Z 1) (of_Z 2) = true /\ num_leb (of_Z 2) (of_Z 4) = true /\
  num_leb (Fin 4) (Fin 8) = true /\ num_leb (Fin 8) PosInf = true /\
  snd (get_filtered_instances (of_Z 2) (of_Z 2) (Fin 8) (Fin 8) None
         "us-east-1" None None Example.ok)
  = Ok [Example.m6i; Example.m5] /\
  snd (get_filtered_instances (of_Z 1) (of_Z 4) (Fin 4) PosInf None
         "us-east-1" None None Example.ok)
  = Ok [Example.m6i; Example.m5; Example.c6i; Example.x9] /\
  forall cand, In cand [Example.m6i; Example.m5] ->
               In cand [Example.m6i; Example.m5; Example.c6i; Example.x9].
Proof.
  repeat (split; [ reflexivity | ]).
  apply (wider_bounds_keep_candidates (of_Z 2) (of_Z 2) (Fin 8) (Fin 8)
           (of_Z 1) (of_Z 4) (Fin 4) PosInf None "us-east-1" None None
           Example.ok); reflexivity.
Defined.

(** ** The table *)

(** The order in which the futures finish changes the order of the rows
    and of the messages, and nothing else. *)
Theorem completion_order_permutes_rows :
  forall (py_float : pyval -> result num) (max_usd : option num)
         (completed completed' : list task),
    Permutation completed completed' ->
    Permutation (table_rows py_float max_usd completed)
                (table_rows py_float max_usd completed') /\
    Permutation (printed py_float max_usd completed)
                (printed py_float max_usd completed').
Proof.
  intros py_float max_usd completed completed' H. split.
  - unfold table_rows. now apply Permutation_flat_map.
  - unfold printed. now apply Permutation_flat_map.
Qed.

Lemma completion_order_permutes_rows_witness :
  Permutation Example.batch (rev Example.batch) /\
  Permutation (table_rows Example.float (Some (Fin (1 # 4))) Example.batch)
    (table_rows Example.float (Some (Fin (1 # 4))) (rev Example.batch)).
Proof.
  split; [ apply Permutation_rev | ].
  apply (completion_order_permutes_rows Example.float (Some (Fin (1 # 4)))
           Example.batch (rev Example.batch)).
  apply Permutation_rev.
Defined.

(** Every row of the table is the row of a finished task: its first five
    cells are the candidate's, and its price cell is ["N/A"] or a number
    that is not zero and not above the ceiling. *)
Theorem table_rows_invariant :
  forall (py_float : pyval -> result num) (max_usd : option num)
         (completed : list task) (r : row),
    In r (table_rows py_float max_usd completed) ->
    (exists instance outcome,
       In (instance, outcome) completed /\
       col_instance r = instance_type instance /\
       col_vcpu r = cores instance /\
       col_memory r = ram instance /\
       col_saving r = discount instance /\
       col_frequency r = frequency_of_interruption instance) /\
    (col_usd r = NA \/
     exists x, col_usd r = PFloat x /\ num_truthy x = true /\
               over_ceiling max_usd x = false).
Proof.
  intros py_float max_usd completed r H.
  apply table_rows_In in H. destruct H as ([instance outcome] & Hin & Hr).
  unfold enrich, try_price in Hr.
  destruct outcome as [price | exc]; simpl in Hr.
  - destruct (is_price price) eqn:Hp.
    + destruct (py_float price) as [x | exc]; simpl in Hr.
      * destruct (over_ceiling max_usd x) eqn:Hc; simpl in Hr;
          [ destruct Hr | ].
        destruct Hr as [<- | []]. split.
        -- exists instance, (Ok price). now repeat split.
        -- unfold add_row, py_or. simpl.
           destruct (num_truthy x) eqn:Ht; [ right | now left ].
           now exists x.
      * destruct Hr as [<- | []]. split; [ | now left ].
        exists instance, (Ok price). now repeat split.
    + destruct Hr as [<- | []]. split.
      * exists instance, (Ok price). now repeat split.
      * left. destruct price; try discriminate; [ reflexivity | ].
        simpl in Hp. apply negb_false_iff, String.eqb_eq in Hp. now subst.
  - destruct Hr as [<- | []]. split; [ | now left ].
    exists instance, (Raise exc). now repeat split.
Qed.

Lemma table_rows_invariant_witness :
  In (add_row Example.m5 (PFloat (Fin (1 # 4))))
     (table_rows Example.float (Some (Fin (1 # 4))) Example.batch) /\
  (col_usd (add_row Example.m5 (PFloat (Fin (1 # 4)))) = NA \/
   exists x,
     col_usd (add_row Example.m5 (PFloat (Fin (1 # 4)))) = PFloat x /\
     num_truthy x = true /\ over_ceiling (Some (Fin (1 # 4))) x = false).
Proof.
  assert (In (add_row Example.m5 (PFloat (Fin (1 # 4))))
            (table_rows Example.float (Some (Fin (1 # 4))) Example.batch))
    as Hin.
  { right; left; reflexivity. }
  split; [ exact Hin | ].
  exact (proj2 (table_rows_invariant Example.float (Some (Fin (1 # 4)))
                  Example.batch _ Hin)).
Defined.

Lemma num_leb_not_ltb (x m : num) :
  num_leb x m = true -> num_ltb m x = false.
Proof.
  destruct x as [ | | p | ], m as [ | | q | ]; simpl; try congruence.
  now intros ->.
Qed.

(** The ceiling is inclusive: a price that is not zero and is at most the
    ceiling has its row with that price.  A comparison with NaN is false,
    so a NaN price, or a NaN ceiling, never drops a row. *)
Theorem price_ceiling_is_inclusive :
  forall (py_float : pyval -> result num) (m : num) (instance : candidate)
         (price : pyval) (x : num),
    is_price price = true -> py_float price = Ok x ->
    num_leb x m = true \/ x = NaN \/ m = NaN ->
    enrich py_float (Some m) (instance, Ok price)
    = ([], [add_row instance (PFloat x)]) /\
    (num_truthy x = true ->
     col_usd (add_row instance (PFloat x)) = PFloat x).
Proof.
  intros py_float m instance price x Hp Hf H.
  rewrite (enrich_priced _ _ _ _ x Hp Hf). split.
  - assert (over_ceiling (Some m) x = false) as ->; [ | reflexivity ].
    simpl. destruct H as [H | [-> | ->]].
    + now apply num_leb_not_ltb.
    + now destruct m.
    + reflexivity.
  - intros Ht. unfold add_row, py_or. simpl. now rewrite Ht.
Qed.

Lemma price_ceiling_is_inclusive_witness :
  is_price (PStr "0.2500") = true /\
  Example.float (PStr "0.2500") = Ok (Fin (1 # 4)) /\
  num_leb (Fin (1 # 4)) (Fin (1 # 4)) = true /\
  enrich Example.float (Some (Fin (1 # 4))) (Example.m5, Ok (PStr "0.2500"))
  = ([], [add_row Example.m5 (PFloat (Fin (1 # 4)))]).
Proof.
  split; [ reflexivity | ]. split; [ reflexivity | ].
  split; [ reflexivity | ].
  apply (price_ceiling_is_inclusive Example.float (Fin (1 # 4)) Example.m5
           (PStr "0.2500") (Fin (1 # 4)) eq_refl eq_refl).
  left; reflexivity.
Defined.

Example nan_price_passes_any_ceiling :
  enrich (fun _ => Ok NaN) (Some NegInf) (Example.m5, Ok (PStr "nan"))
  = ([], [add_row Example.m5 (PFloat NaN)]).
Proof. reflexivity. Qed.

(** ** The whole run *)

Lemma filtered_instances_of_200 (args : arguments) (resp : response) :
  status_code resp = 200 -> fst (filtered_instances_of args resp) = [].
Proof.
  intros H. unfold filtered_instances_of, get_filtered_instances.
  now rewrite H.
Qed.

Lemma main_with_candidates (py_float : pyval -> result num)
    (args : arguments) (w : world) (resp : response)
    (l : list candidate) :
  advisor w = Ok resp -> status_code resp = 200 ->
  snd (filtered_instances_of args resp) = Ok l -> l <> [] ->
  main py_float args w
  = (display_instance_info py_float (arg_max_usd args) (completion w l), 0).
Proof.
  intros Hw Hs Hl Hne. unfold main. rewrite Hw.
  pose proof (filtered_instances_of_200 args resp Hs) as Hf.
  destruct (filtered_instances_of args resp) as [out r]. simpl in *.
  subst out r. destruct l; [ congruence | reflexivity ].
Qed.

(** Once [parser.parse_args()] has returned the arguments, the exit
    status is settled before any price is looked up: it is 1 when
    [requests.get] for the advisor document or [get_filtered_instances]
    raises and 0 otherwise, so two runs that get the same answer from the
    advisor endpoint exit alike, whatever the price lookups do.  A run
    that exits with 1 has printed nothing on standard output. *)
Theorem exit_status_is_settled_by_the_advisor :
  forall (py_float : pyval -> result num) (args : arguments) (w : world),
    snd (main py_float args w)
    = match advisor w with
      | Raise _ => 1
      | Ok resp =>
          match snd (filtered_instances_of args resp) with
          | Raise _ => 1
          | Ok _ => 0
          end
      end /\
    (snd (main py_float args w) = 1 -> fst (main py_float args w) = []) /\
    (forall (py_float' : pyval -> result num) (w' : world),
       advisor w' = advisor w ->
       snd (main py_float' args w') = snd (main py_float args w)).
Proof.
  intros py_float args w.
  assert (forall f v,
            snd (main f args v)
            = match advisor v with
              | Raise _ => 1
              | Ok resp =>
                  match snd (filtered_instances_of args resp) with
                  | Raise _ => 1
                  | Ok _ => 0
                  end
              end) as Hexit.
  { intros f v. unfold main. destruct (advisor v) as [resp | x];
      [ | reflexivity ].
    destruct (filtered_instances_of args resp) as [out [[ | c l] | x]];
      reflexivity. }
  split; [ apply Hexit | split ].
  - unfold main. destruct (advisor w) as [resp | x]; [ | reflexivity ].
    unfold filtered_instances_of, get_filtered_instances.
    destruct (status_code resp =? 200); simpl.
    + match goal with
      | |- context [bind ?m ?k] => destruct (bind m k) as [[ | c l] | x]
      end; simpl; try discriminate; reflexivity.
    + discriminate.
  - intros f' w' Hw. rewrite !Hexit. now rewrite Hw.
Qed.

Example status_one_without_output :
  main Example.float Example.args
    (mkWorld (Ok (mkResponse 200 (Raise JSONDecodeError)))
       (Example.reversed (Ok PNone)))
  = ([], 1).
Proof. reflexivity. Qed.

Lemma all_above_the_ceiling (py_float : pyval -> result num) (m : num)
    (completed : list task) :
  (forall t, In t completed ->
     exists price x,
       snd t = Ok price /\ is_price price = true /\
       py_float price = Ok x /\ num_ltb m x = true) ->
  display_instance_info py_float (Some m) completed
  = [Table field_names []].
Proof.
  intros H. unfold display_instance_info, printed, table_rows.
  assert (forall t, In t completed -> enrich py_float (Some m) t = ([], []))
    as He.
  { intros [instance outcome] Ht.
    destruct (H _ Ht) as (price & x & Ho & Hp & Hf & Hlt). simpl in Ho.
    subst outcome. rewrite (enrich_priced _ _ _ _ x Hp Hf). simpl.
    now rewrite Hlt. }
  clear H. induction completed as [ | t rest IH]; [ reflexivity | ].
  simpl. rewrite (He t (or_introl eq_refl)). simpl.
  apply IH. intros t' Ht'. apply He. now right.
Qed.

(** When the filter returns candidates and every one of them has a price
    above the ceiling, the program prints the header of the table with no
    row, not the no-match message, and exits with 0. *)
Theorem all_prices_above_ceiling_print_an_empty_table :
  forall (py_float : pyval -> result num) (args : arguments) (w : world)
         (resp : response) (l : list candidate) (m : num),
    advisor w = Ok resp -> status_code resp = 200 ->
    snd (filtered_instances_of args resp) = Ok l -> l <> [] ->
    arg_max_usd args = Some m ->
    (forall t, In t (completion w l) ->
       exists price x,
         snd t = Ok price /\ is_price price = true /\
         py_float price = Ok x /\ num_ltb m x = true) ->
    main py_float args w = ([Table field_names []], 0).
Proof.
  intros py_float args w resp l m Hw Hs Hl Hne Hm H.
  rewrite (main_with_candidates _ _ _ resp l Hw Hs Hl Hne), Hm.
  now rewrite all_above_the_ceiling.
Qed.

Lemma all_prices_above_ceiling_print_an_empty_table_witness :
  advisor (mkWorld (Ok Example.ok) (Example.reversed (Ok (PStr "0.5000"))))
  = Ok Example.ok /\
  status_code Example.ok = 200 /\
  snd (filtered_instances_of
         (mkArguments 1 (of_Z 4) (Fin 4) (Fin 16) None "us-east-1" "linux"
            (Some "6i") (Some (Fin (1 # 4)))) Example.ok)
  = Ok [Example.m6i; Example.c6i] /\
  main Example.float
    (mkArguments 1 (of_Z 4) (Fin 4) (Fin 16) None "us-east-1" "linux"
       (Some "6i") (Some (Fin (1 # 4))))
    (mkWorld (Ok Example.ok) (Example.reversed (Ok (PStr "0.5000"))))
  = ([Table field_names []], 0).
Proof.
  split; [ reflexivity | ]. split; [ reflexivity | ].
  split; [ reflexivity | ].
  apply (all_prices_above_ceiling_print_an_empty_table Example.float _ _
           Example.ok [Example.m6i; Example.c6i] (Fin (1 # 4)));
    try reflexivity.
  - discriminate.
  - intros t Ht. exists (PStr "0.5000"), (Fin (1 # 2)).
    simpl in Ht. destruct Ht as [<- | [<- | []]]; repeat split.
Defined.

Lemma submitted_instances (json_loads : string -> result pyval)
    (get : string -> result price_response) (region os : string)
    (instances : list candidate) :
  map (fun t : task => instance_type (fst t))
      (submitted json_loads get region os instances)
  = map instance_type instances.
Proof.
  unfold submitted. rewrite map_map. reflexivity.
Qed.

Lemma table_rows_without_ceiling (py_float : pyval -> result num)
    (completed : list task) :
  map col_instance (table_rows py_float None completed)
  = map (fun t : task => instance_type (fst t)) completed.
Proof.
  induction completed as [ | [instance outcome] rest IH]; [ reflexivity | ].
  unfold table_rows in *. simpl. rewrite map_app, IH. f_equal.
  unfold enrich, try_price.
  destruct outcome as [price | e]; simpl; [ | reflexivity ].
  destruct (is_price price); [ | reflexivity ].
  destruct (py_float price); reflexivity.
Qed.

Lemma enrich_without_ceiling (py_float : pyval -> result num) (t : task) :
  (fst (enrich py_float None t) = [] \/
   exists exc,
     fst (enrich py_float None t)
     = [ErrorFetchingPrice (instance_type (fst t)) exc]) /\
  exists price,
    snd (enrich py_float None t)
    = [mkRow (instance_type (fst t)) (cores (fst t)) (ram (fst t))
         (discount (fst t)) (frequency_of_interruption (fst t)) price] /\
    (price = PStr "N/A" \/
     exists x, price = PFloat x /\ num_truthy x = true).
Proof.
  destruct t as [instance outcome]. unfold enrich, try_price. simpl.
  destruct outcome as [price | exc]; simpl.
  - destruct (is_price price) eqn:Hp.
    + destruct (py_float price) as [x | exc]; simpl.
      * split; [ now left | ].
        exists (py_or (PFloat x) NA). split; [ reflexivity | ].
        unfold py_or. simpl. destruct (num_truthy x) eqn:Ht;
          [ right; now exists x | now left ].
      * split; [ right; now exists exc | ].
        exists (PStr "N/A"). split; [ reflexivity | now left ].
    + split; [ now left | ].
      exists (PStr "N/A"). split; [ | now left ].
      destruct price; try discriminate; [ reflexivity | ].
      simpl in Hp. apply negb_false_iff, String.eqb_eq in Hp. now subst.
  - split; [ right; now exists exc | ].
    exists (PStr "N/A"). split; [ reflexivity | now left ].
Qed.

(** Without a price ceiling, a run in which the filter returns candidates
    prints the messages of the failed lookups and then one table, and
    nothing else; the table has one row per finished task, in completion
    order, with the five cells of the task's candidate and a price that
    is ["N/A"] or a number that is not zero: one row per candidate,
    whatever the price endpoint does.  The run exits with 0. *)
Theorem run_lists_every_candidate :
  forall (json_loads : string -> result pyval)
         (py_float : pyval -> result num) (args : arguments)
         (resp : response) (get : string -> result price_response)
         (order : list task -> list task) (l : list candidate),
    status_code resp = 200 ->
    snd (filtered_instances_of args resp) = Ok l -> l <> [] ->
    arg_max_usd args = None ->
    (forall ts, Permutation (order ts) ts) ->
    exists messages rows,
      run json_loads py_float args (Ok resp) get order
      = (messages ++ [Table field_names rows], 0) /\
      Forall (fun o => exists it_type exc,
                         o = ErrorFetchingPrice it_type exc) messages /\
      Forall2
        (fun (t : task) (r : row) =>
           col_instance r = instance_type (fst t) /\
           col_vcpu r = cores (fst t) /\
           col_memory r = ram (fst t) /\
           col_saving r = discount (fst t) /\
           col_frequency r = frequency_of_interruption (fst t) /\
           (col_usd r = PStr "N/A" \/
            exists x, col_usd r = PFloat x /\ num_truthy x = true))
        (order (submitted json_loads get (arg_region args) (arg_os args) l))
        rows /\
      Permutation (map col_instance rows) (map instance_type l) /\
      List.length rows = List.length l.
Proof.
  intros json_loads py_float args resp get order l Hs Hl Hne Hm Hperm.
  unfold run.
  match goal with
  | |- context [main py_float args ?w] =>
      rewrite (main_with_candidates py_float args w resp l eq_refl Hs Hl
                 Hne)
  end.
  rewrite Hm. cbn [completion].
  set (ts := submitted json_loads get (arg_region args) (arg_os args) l).
  exists (printed py_float None (order ts)),
         (table_rows py_float None (order ts)).
  split; [ reflexivity | ].
  assert (Permutation
            (map col_instance (table_rows py_float None (order ts)))
            (map instance_type l)) as HP.
  { rewrite table_rows_without_ceiling.
    rewrite <- (submitted_instances json_loads get (arg_region args)
                  (arg_os args) l).
    apply Permutation_map. apply Hperm. }
  split; [ | split; [ | split; [ exact HP | ] ] ].
  - unfold printed. generalize (order ts). intros c.
    induction c as [ | t rest IH]; simpl; [ constructor | ].
    apply Forall_app. split; [ | exact IH ].
    destruct (enrich_without_ceiling py_float t) as ([-> | (exc & ->)] & _).
    + constructor.
    + constructor; [ | constructor ].
      now exists (instance_type (fst t)), exc.
  - unfold table_rows. generalize (order ts). intros c.
    induction c as [ | t rest IH]; simpl; [ constructor | ].
    destruct (enrich_without_ceiling py_float t)
      as (_ & price & -> & Hprice).
    simpl. constructor; [ | exact IH ]. simpl. now repeat split.
  - apply Permutation_length in HP. now rewrite !length_map in HP.
Qed.

Lemma run_lists_every_candidate_witness :
  status_code Example.ok = 200 /\
  snd (filtered_instances_of PriceExample.args Example.ok)
  = Ok [Example.m6i; Example.m5; Example.c6i; Example.x9] /\
  arg_max_usd PriceExample.args = None /\
  run PriceExample.loads Example.float PriceExample.args (Ok Example.ok)
    (fun _ => Ok PriceExample.ok) (@rev task)
  = ([ Table field_names
         [ mkRow "x9.odd" (PInt 4) (PFloat (Fin 16)) (PInt 50) "Unknown"
             (PStr "N/A");
           mkRow "c6i.xlarge" (PInt 4) (PFloat (Fin 8)) (PInt 60) "10-15%"
             (PStr "N/A");
           mkRow "m5.large" (PInt 2) (PFloat (Fin 8)) (PInt 65) "<5%"
             (PStr "N/A");
           mkRow "m6i.large" (PInt 2) (PFloat (Fin 8)) (PInt 70) "5-10%"
             (PFloat (Fin (1 # 16))) ] ], 0) /\
  exists messages rows,
    run PriceExample.loads Example.float PriceExample.args (Ok Example.ok)
      (fun _ => Ok PriceExample.ok) (@rev task)
    = (messages ++ [Table field_names rows], 0) /\
    Forall (fun o => exists it_type exc,
                       o = ErrorFetchingPrice it_type exc) messages /\
    Forall2
      (fun (t : task) (r : row) =>
         col_instance r = instance_type (fst t) /\
         col_vcpu r = cores (fst t) /\
         col_memory r = ram (fst t) /\
         col_saving r = discount (fst t) /\
         col_frequency r = frequency_of_interruption (fst t) /\
         (col_usd r = PStr "N/A" \/
          exists x, col_usd r = PFloat x /\ num_truthy x = true))
      (rev (submitted PriceExample.loads (fun _ => Ok PriceExample.ok)
              (arg_region PriceExample.args) (arg_os PriceExample.args)
              [Example.m6i; Example.m5; Example.c6i; Example.x9]))
      rows /\
    Permutation (map col_instance rows)
      (map instance_type
         [Example.m6i; Example.m5; Example.c6i; Example.x9]) /\
    List.length rows
    = List.length [Example.m6i; Example.m5; Example.c6i; Example.x9].
Proof.
  split; [ reflexivity | ]. split; [ reflexivity | ].
  split; [ reflexivity | ]. split; [ reflexivity | ].
  apply (run_lists_every_candidate PriceExample.loads Example.float
           PriceExample.args Example.ok (fun _ => Ok PriceExample.ok) (@rev task)
           [Example.m6i; Example.m5; Example.c6i; Example.x9]);
    try reflexivity.
  - discriminate.
  - intros ts. apply Permutation_sym, Permutation_rev.
Defined.

Example run_with_the_price_document :
  run PriceExample.loads Example.float
    (mkArguments 1 (of_Z 4) (Fin 4) (Fin 16) None "us-east-1" "linux"
       (Some "6i") (Some (Fin (1 # 4))))
    (Ok Example.ok) (fun _ => Ok PriceExample.ok) (@rev task)
  = ([ Table field_names
         [ add_row Example.c6i NA;
           add_row Example.m6i (PFloat (Fin (1 # 16))) ] ], 0).
Proof. reflexivity. Qed.

(** ** Missing keys and NaN bounds *)

(** An advisor document without the key ["instance_types"] gives the
    empty list, and one without the key ["spot_advisor"] gives no
    candidate: the missing value is taken as an empty dict. *)
Theorem advisor_document_without_its_keys :
  forall (min_cores max_cores min_ram max_ram : num)
         (max_interruption : option num) (region : string)
         (max_usd : option num) (instance_types : option (list string))
         (d : list (string * pyval)),
    (dict_lookup "instance_types" d = None ->
     get_filtered_instances min_cores max_cores min_ram max_ram
       max_interruption region max_usd instance_types
       (mkResponse 200 (Ok (PDict d))) = ([], Ok []))
    /\
    (dict_lookup "spot_advisor" d = None ->
     forall l,
       snd (get_filtered_instances min_cores max_cores min_ram max_ram
              max_interruption region max_usd instance_types
              (mkResponse 200 (Ok (PDict d)))) = Ok l ->
       l = []).
Proof.
  intros a b c d' mi region mu types d. split.
  - intros H. unfold get_filtered_instances. simpl. now rewrite H.
  - intros H l Hl. destruct l as [ | cand l]; [ reflexivity | exfalso ].
    destruct (get_filtered_In _ _ _ _ _ _ _ _ _ _ _ Hl (or_introl eq_refl))
      as (_ & data & itd & sa & items & it & details
          & Hj & _ & Hsa & _ & _ & Hb).
    simpl in Hj. injection Hj as <-. simpl in Hsa. rewrite H in Hsa.
    injection Hsa as <-.
    apply loop_body_Some in Hb.
    destruct Hb as (_ & cs & rg & rd & ld & _ & _ & _ & Hr & _).
    discriminate.
Qed.

Lemma advisor_document_without_its_keys_witness :
  dict_lookup "instance_types" [("spot_advisor", Example.spot_advisor)]
  = None /\
  get_filtered_instances (of_Z 0) PosInf (Fin 0) PosInf None "us-east-1"
    None None
    (mkResponse 200 (Ok (PDict [("spot_advisor", Example.spot_advisor)])))
  = ([], Ok []).
Proof.
  split; [ reflexivity | ].
  apply (proj1 (advisor_document_without_its_keys (of_Z 0) PosInf (Fin 0)
                  PosInf None "us-east-1" None None
                  [("spot_advisor", Example.spot_advisor)])).
  reflexivity.
Defined.

(** A price document without the key ["config"], or whose ["config"] has
    no key ["regions"], gives [None] without raising; a document that is
    not a JSON object makes the lookup raise [AttributeError]. *)
Theorem price_document_without_its_keys :
  forall (json_loads : string -> result pyval) (resp : price_response)
         (instance_type region os : string),
    price_status_code resp = 200 ->
    (forall d, json_loads (raw_data (price_text resp)) = Ok (PDict d) ->
       dict_lookup "config" d = None ->
       fetch_spot_price json_loads (Ok resp) instance_type region os
       = Ok PNone)
    /\
    (forall d c, json_loads (raw_data (price_text resp)) = Ok (PDict d) ->
       dict_lookup "config" d = Some (PDict c) ->
       dict_lookup "regions" c = None ->
       fetch_spot_price json_loads (Ok resp) instance_type region os
       = Ok PNone)
    /\
    (forall v, json_loads (raw_data (price_text resp)) = Ok v ->
       (forall d, v <> PDict d) ->
       fetch_spot_price json_loads (Ok resp) instance_type region os
       = Raise AttributeError).
Proof.
  intros json_loads resp it region os Hs.
  unfold fetch_spot_price. simpl bind. rewrite Hs. simpl.
  split; [ | split ].
  - intros d Hj Hc. rewrite Hj. simpl. now rewrite Hc.
  - intros d c Hj Hc Hr. rewrite Hj. simpl. rewrite Hc. simpl.
    now rewrite Hr.
  - intros v Hj Hv. rewrite Hj. simpl.
    destruct v; try reflexivity. now elim (Hv d).
Qed.

Lemma price_document_without_its_keys_witness :
  price_status_code (mkPriceResponse 200 "callback({});") = 200 /\
  PriceExample.loads (raw_data "callback({});") = Ok (PDict []) /\
  fetch_spot_price PriceExample.loads
    (Ok (mkPriceResponse 200 "callback({});")) "m6i.large" "us-east-1"
    "linux"
  = Ok PNone /\
  PriceExample.loads (raw_data "callback([]);") = Ok (PList []) /\
  fetch_spot_price PriceExample.loads
    (Ok (mkPriceResponse 200 "callback([]);")) "m6i.large" "us-east-1"
    "linux"
  = Raise AttributeError.
Proof.
  split; [ reflexivity | ]. split; [ reflexivity | ]. split.
  - apply (proj1 (price_document_without_its_keys PriceExample.loads
                    (mkPriceResponse 200 "callback({});") "m6i.large"
                    "us-east-1" "linux" eq_refl) []); reflexivity.
  - split; [ reflexivity | ].
    apply (proj2 (proj2 (price_document_without_its_keys PriceExample.loads
                           (mkPriceResponse 200 "callback([]);")
                           "m6i.large" "us-east-1" "linux" eq_refl))
             (PList [])); [ reflexivity | discriminate ].
Defined.

(** A bound that is NaN ([--min-ram nan]) makes every comparison with it
    false: the filter returns no candidate. *)
Theorem nan_bound_excludes_every_entry :
  forall (min_cores max_cores min_ram max_ram : num)
         (max_interruption : option num) (region : string)
         (max_usd : option num) (instance_types : option (list string))
         (resp : response) (l : list candidate),
    min_cores = NaN \/ max_cores = NaN \/ min_ram = NaN \/ max_ram = NaN ->
    snd (get_filtered_instances min_cores max_cores min_ram max_ram
           max_interruption region max_usd instance_types resp) = Ok l ->
    l = [].
Proof.
  intros a b c d mi region mu types resp l Hnan H.
  destruct l as [ | cand l]; [ reflexivity | exfalso ].
  destruct (get_filtered_In _ _ _ _ _ _ _ _ _ _ _ H (or_introl eq_refl))
    as (_ & data & itd & sa & items & it & details
        & _ & _ & _ & _ & _ & Hb).
  apply loop_body_Some in Hb.
  destruct Hb as (_ & cs & rg & rd & ld & _ & _ & Hin & _).
  apply in_bounds_true in Hin.
  destruct Hin as (x & y & _ & _ & H1 & H2 & H3 & H4).
  destruct Hnan as [-> | [-> | [-> | ->]]].
  - discriminate.
  - now destruct x.
  - discriminate.
  - now destruct y.
Qed.

Lemma nan_bound_excludes_every_entry_witness :
  (of_Z 0 = NaN \/ PosInf = NaN \/ NaN = NaN \/ PosInf = NaN) /\
  snd (get_filtered_instances (of_Z 0) PosInf NaN PosInf None "us-east-1"
         None None Example.ok) = Ok [] /\
  @nil candidate = [].
Proof.
  assert (of_Z 0 = NaN \/ PosInf = NaN \/ NaN = NaN \/ PosInf = NaN) as Hn.
  { right; right; left; reflexivity. }
  split; [ exact Hn | ]. split; [ reflexivity | ].
  apply (nan_bound_excludes_every_entry (of_Z 0) PosInf NaN PosInf None
           "us-east-1" None None Example.ok [] Hn).
  reflexivity.
Defined.
